(** * History manager of the video-forensics pipeline

    A shallow embedding of [history_manager.py] (class [HistoryManager]):
    the JSON history file, the per-analysis artifact folders, the HTML
    report renderer and the ZIP export, followed by the properties of the
    record lifecycle that the specification states.

    Conventions of the embedding.
    - Values that travel through [json.dump]/[json.load] are kept as JSON
      values ([json]); a Python [dict] is an association list in insertion
      order, with [dict_set] overwriting in place as Python does.
    - Text is a [String.string], a sequence of bytes; lengths and slices
      count bytes.
    - A file holds either text that [json.load] parses ([JsonText], kept
      as the parsed value) or text that it rejects ([NotJson]).
    - Paths are [pathlib] part lists; the file system is a finite map from
      paths to nodes.  Neither the working directory nor [..] nor links
      are resolved: two part lists are two files.
    - Methods run in a state-and-exception monad over the [world]: file
      system, SQLite table, the entropy behind [uuid.uuid4] and the clock
      behind [datetime.now]. *)

From Stdlib Require Import ZArith String Ascii List Floats.
From stdpp Require Import base gmap strings list fin_maps pretty.

Set Warnings "-register-all".
Local Open Scope string_scope.
Local Open Scope Z_scope.

(** ** JSON values and the Python operations applied to them *)

Inductive json : Type :=
| JNull
| JBool (b : bool)
| JInt (n : Z)
| JFloat (f : float)
| JStr (s : string)
| JList (l : list json)
| JDict (d : list (string * json)).

Abbreviation pydict := (list (string * json)).

(** Exceptions that the module can meet. *)
Inductive exn : Type :=
| AttributeError | TypeError | KeyError | ValueError
| JSONDecodeError
| FileNotFoundError | FileExistsError | IsADirectoryError
| NotADirectoryError | PermissionError | SameFileError
| IntegrityError | InterfaceError.

Inductive res (A : Type) : Type :=
| Ok (a : A)
| Raise (e : exn).
Arguments Ok {A} a.
Arguments Raise {A} e.

Definition res_bind {A B} (r : res A) (k : A -> res B) : res B :=
  match r with Ok a => k a | Raise e => Raise e end.

Notation "'let?' x ':=' r 'in' k" := (res_bind r (fun x => k))
  (at level 10, x pattern, r at level 100, k at level 200).

(** The empty string and the double quote, named. *)
Definition nil_str : string := EmptyString.
Definition dq : string := String (ascii_of_nat 34) EmptyString.

(** [d\[k\]] and [d.get(k)] on a dict: the first binding of [k]. *)
Fixpoint dict_lookup {V} (d : list (string * V)) (k : string) : option V :=
  match d with
  | [] => None
  | (k', v) :: d' => if String.eqb k' k then Some v else dict_lookup d' k
  end.

(** [d\[k\] = v]: overwrite where the key stands, else append. *)
Fixpoint dict_set {V} (d : list (string * V)) (k : string) (v : V)
  : list (string * V) :=
  match d with
  | [] => [(k, v)]
  | (k', v') :: d' =>
      if String.eqb k' k then (k', v) :: d' else (k', v') :: dict_set d' k v
  end.

(** [bool(x)]. *)
Definition truthy (x : json) : bool :=
  match x with
  | JNull => false
  | JBool b => b
  | JInt n => negb (n =? 0)
  | JFloat f => negb (PrimFloat.eqb f 0%float)
  | JStr s => negb (String.eqb s nil_str)
  | JList l => match l with [] => false | _ => true end
  | JDict d => match d with [] => false | _ => true end
  end.

(** [x.get(k, default)]: only a dict has the method. *)
Definition py_get (x : json) (k : string) (default : json) : res json :=
  match x with
  | JDict d => Ok (match dict_lookup d k with Some v => v | None => default end)
  | _ => Raise AttributeError
  end.

(** [x\[k\]] with a string key. *)
Definition py_item (x : json) (k : string) : res json :=
  match x with
  | JDict d => match dict_lookup d k with Some v => Ok v | None => Raise KeyError end
  | _ => Raise TypeError
  end.

(** [x == s] for a string [s]. *)
Definition py_eq_str (x : json) (s : string) : bool :=
  match x with JStr t => String.eqb t s | _ => false end.

Fixpoint chars (s : string) : list json :=
  match s with
  | EmptyString => []
  | String c s' => JStr (String c EmptyString) :: chars s'
  end.

(** [for y in x]: what the iteration yields. *)
Definition py_iter (x : json) : res (list json) :=
  match x with
  | JList l => Ok l
  | JDict d => Ok (map (fun kv => JStr (fst kv)) d)
  | JStr s => Ok (chars s)
  | _ => Raise TypeError
  end.

(** [len(x)]. *)
Definition py_len (x : json) : res nat :=
  match x with
  | JList l => Ok (length l)
  | JDict d => Ok (length d)
  | JStr s => Ok (String.length s)
  | _ => Raise TypeError
  end.

(** [needle in s] on strings. *)
Fixpoint is_substring (needle s : string) : bool :=
  String.prefix needle s
  || match s with
     | EmptyString => false
     | String _ s' => is_substring needle s'
     end.

(** [needle in x] for a string [needle]. *)
Definition py_contains (needle : string) (x : json) : res bool :=
  match x with
  | JStr s => Ok (is_substring needle s)
  | JList l => Ok (existsb (fun y => py_eq_str y needle) l)
  | JDict d => Ok (existsb (fun kv => String.eqb (fst kv) needle) d)
  | _ => Raise TypeError
  end.

(** [s.replace(old, new)] for a non-empty [old]: every occurrence, left
    to right, without overlap.  [skip] counts the characters of a match
    still to be dropped. *)
Fixpoint replace_from (old new : string) (skip : nat) (s : string) : string :=
  match s with
  | EmptyString => EmptyString
  | String c s' =>
      match skip with
      | S k => replace_from old new k s'
      | O =>
          if String.prefix old s
          then new +:+ replace_from old new (Nat.pred (String.length old)) s'
          else String c (replace_from old new 0 s')
      end
  end.

Definition str_replace (old new s : string) : string := replace_from old new 0 s.

(** [x.replace(old, new)]: a method of [str] alone. *)
Definition py_replace (x : json) (old new : string) : res string :=
  match x with
  | JStr s => Ok (str_replace old new s)
  | _ => Raise AttributeError
  end.

Fixpoint str_take (n : nat) (s : string) : string :=
  match n, s with
  | S k, String c s' => String c (str_take k s')
  | _, _ => EmptyString
  end.

(** [x\[:n\]]; slicing a dict raises (TypeError before Python 3.12,
    KeyError since, not told apart here). *)
Definition py_slice_to (n : nat) (x : json) : res json :=
  match x with
  | JStr s => Ok (JStr (str_take n s))
  | JList l => Ok (JList (take n l))
  | _ => Raise TypeError
  end.

(** ** Paths *)

Abbreviation path := (list string).

Definition slash : ascii := ascii_of_nat 47.

(** The text between the slashes of [s]; [cur] is the piece being read. *)
Fixpoint split_slash (cur : string) (s : string) : list string :=
  match s with
  | EmptyString => [cur]
  | String c s' =>
      if Ascii.eqb c slash then cur :: split_slash nil_str s'
      else split_slash (cur +:+ String c EmptyString) s'
  end.

Definition is_absolute (s : string) : bool :=
  match s with String c _ => Ascii.eqb c slash | EmptyString => false end.

Definition proper_part (c : string) : bool :=
  negb (String.eqb c nil_str) && negb (String.eqb c ".").

(** [Path(s)]: empty and [.] parts are dropped, a leading slash becomes
    the anchor part ["/"]. *)
Definition Path (s : string) : path :=
  let parts := List.filter proper_part (split_slash nil_str s) in
  if is_absolute s then "/" :: parts else parts.

(** [str(p)]. *)
Definition path_str (p : path) : string :=
  match p with
  | [] => "."
  | c :: rest =>
      if String.eqb c "/" then "/" +:+ String.concat "/" rest
      else String.concat "/" p
  end.

(** [p.name]: the last part, empty for the anchor and for [Path("")]. *)
Definition path_name (p : path) : string :=
  let n := List.last p nil_str in
  if String.eqb n "/" then nil_str else n.

(** [p.parent]. *)
Definition path_parent (p : path) : path :=
  if decide (p = ["/"]) then p else take (Nat.pred (length p)) p.

(** [p / s]. *)
Definition path_div (p : path) (s : string) : path :=
  if is_absolute s then Path s else (p ++ Path s)%list.

(** ** The world: file system, settings table, entropy and clock *)

(** What [json.load] makes of a file's text. *)
Inductive fdata : Type :=
| NotJson (raw : string)
| JsonText (doc : json).

Inductive node : Type :=
| File (d : fdata)
| Dir.

(** A row of the SQLite table [settings]. *)
Record settings_row : Type := SettingsRow {
  row_id : string;
  row_video_name : string;
  row_timestamp : string;
  row_fps_awal : json;
  row_fps_baru : json;
  row_ssim_thresh : json;
  row_z_thresh : json;
}.

Record world : Type := World {
  fs : gmap path node;
  locked : gset path;           (* paths the system refuses to unlink *)
  settings : list settings_row; (* analysis_settings.db *)
  entropy : nat -> string;      (* the identifiers uuid4 will draw *)
  drawn : nat;
  clock : nat -> string;        (* the instants datetime.now will read *)
  ticks : nat;
}.

Definition set_fs (f : gmap path node -> gmap path node) (w : world) : world :=
  World (f (fs w)) (locked w) (settings w) (entropy w) (drawn w) (clock w) (ticks w).

Definition set_settings (f : list settings_row -> list settings_row) (w : world) : world :=
  World (fs w) (locked w) (f (settings w)) (entropy w) (drawn w) (clock w) (ticks w).

(** The working directory and the anchor always exist. *)
Definition stat (t : gmap path node) (p : path) : option node :=
  if decide (p = [] \/ p = ["/"]) then Some Dir else t !! p.

(** ** The monad of methods *)

Definition M (A : Type) : Type := world -> res A * world.

Definition ret {A} (a : A) : M A := fun w => (Ok a, w).
Definition raise {A} (e : exn) : M A := fun w => (Raise e, w).
Definition lift {A} (r : res A) : M A := fun w => (r, w).

Definition bind {A B} (m : M A) (k : A -> M B) : M B :=
  fun w =>
    match m w with
    | (Ok a, w') => k a w'
    | (Raise e, w') => (Raise e, w')
    end.

Notation "'let*' x ':=' m 'in' k" := (bind m (fun x => k))
  (at level 10, x pattern, m at level 100, k at level 200).

(** [try: m except (handled...): h]. *)
Definition try_except {A} (m : M A) (handled : exn -> bool) (h : M A) : M A :=
  fun w =>
    match m w with
    | (Raise e, w') => if handled e then h w' else (Raise e, w')
    | r => r
    end.

(** [for x in l: body x], threading the loop's local state [acc]. *)
Fixpoint for_each {A S} (l : list A) (body : A -> S -> M S) (acc : S) : M S :=
  match l with
  | [] => ret acc
  | x :: l' => let* acc' := body x acc in for_each l' body acc'
  end.

(** ** File-system calls *)

Definition path_exists (p : path) : M bool :=
  fun w => (Ok (bool_decide (is_Some (stat (fs w) p))), w).

Definition path_is_dir (p : path) : M bool :=
  fun w => (Ok (match stat (fs w) p with Some Dir => true | _ => false end), w).

(** [os.path.exists(s)] on a string: the empty string names nothing. *)
Definition os_path_exists (s : string) : M bool :=
  if String.eqb s nil_str then ret false else path_exists (Path s).

(** [p.mkdir(exist_ok=True)], parents not created. *)
Definition mkdir_exist_ok (p : path) : M unit :=
  fun w =>
    match stat (fs w) p with
    | Some Dir => (Ok tt, w)
    | Some (File _) => (Raise FileExistsError, w)
    | None =>
        match stat (fs w) (path_parent p) with
        | Some Dir => (Ok tt, set_fs (insert p Dir) w)
        | Some (File _) => (Raise NotADirectoryError, w)
        | None => (Raise FileNotFoundError, w)
        end
    end.

(** [open(p, 'r')] and read. *)
Definition read_file (p : path) : M fdata :=
  fun w =>
    match stat (fs w) p with
    | Some (File d) => (Ok d, w)
    | Some Dir => (Raise IsADirectoryError, w)
    | None => (Raise FileNotFoundError, w)
    end.

(** [open(p, 'w')] and write [d]. *)
Definition write_file (p : path) (d : fdata) : M unit :=
  fun w =>
    match stat (fs w) p with
    | Some (File _) => (Ok tt, set_fs (insert p (File d)) w)
    | Some Dir => (Raise IsADirectoryError, w)
    | None =>
        match stat (fs w) (path_parent p) with
        | Some Dir => (Ok tt, set_fs (insert p (File d)) w)
        | Some (File _) => (Raise NotADirectoryError, w)
        | None => (Raise FileNotFoundError, w)
        end
    end.

(** [json.load(f)] and [json.dump(v, f)]. *)
Definition json_load (d : fdata) : M json :=
  match d with
  | JsonText v => ret v
  | NotJson _ => raise JSONDecodeError
  end.

Definition json_dump_to (p : path) (v : json) : M unit := write_file p (JsonText v).

Definition is_relative (k : path) : bool :=
  match k with
  | c :: _ => negb (String.eqb c "/")
  | [] => true
  end.

(** [k] is [p] or lies below it; only relative paths lie below the
    working directory [[]]. *)
Definition inside (p k : path) : Prop :=
  p `prefix_of` k /\ (p = [] -> is_relative k = true).

Global Instance inside_dec p k : Decision (inside p k).
Proof. unfold inside. apply _. Defined.

(** The part of the tree at or below [p], and the rest. *)
Definition below (p : path) (t : gmap path node) : gmap path node :=
  filter (fun kv => inside p (fst kv)) t.

Definition without (p : path) (t : gmap path node) : gmap path node :=
  filter (fun kv => ~ inside p (fst kv)) t.

(** [shutil.rmtree(p)].  The system refuses when a path of the tree is
    locked; the model then leaves the tree as it stood (how much of it
    is already gone when the refusal comes is not tracked). *)
Definition rmtree (p : path) : M unit :=
  fun w =>
    match stat (fs w) p with
    | None => (Raise FileNotFoundError, w)
    | Some (File _) => (Raise NotADirectoryError, w)
    | Some Dir =>
        if decide (dom (below p (fs w)) ## locked w)
        then (Ok tt, set_fs (without p) w)
        else (Raise PermissionError, w)
    end.

(** [shutil.copy(src, dst)]: into [dst] when it is a directory. *)
Definition shutil_copy (src dst : path) : M unit :=
  let* dst_is_dir := path_is_dir dst in
  let target := if (dst_is_dir : bool) then (dst ++ Path (path_name src))%list else dst in
  if decide (src = target) then raise SameFileError
  else
    let* d := read_file src in
    write_file target d.

(** [uuid.uuid4()] as text, and [datetime.now().isoformat()]. *)
Definition uuid4 : M string :=
  fun w => (Ok (entropy w (drawn w)),
            World (fs w) (locked w) (settings w) (entropy w) (S (drawn w)) (clock w) (ticks w)).

Definition now_isoformat : M string :=
  fun w => (Ok (clock w (ticks w)),
            World (fs w) (locked w) (settings w) (entropy w) (drawn w) (clock w) (S (ticks w))).

(** [p.glob('**/*')] kept to the regular files: every file strictly
    below the directory [p], with its content; nothing when [p] is not a
    directory. *)
Definition file_of (kv : path * node) : option (path * fdata) :=
  match snd kv with
  | File d => Some (fst kv, d)
  | Dir => None
  end.

Definition glob_files (p : path) : M (list (path * fdata)) :=
  fun w =>
    match stat (fs w) p with
    | Some Dir =>
        (Ok (omap file_of
               (map_to_list (filter (fun kv => fst kv <> p) (below p (fs w))))), w)
    | _ => (Ok [], w)
    end.

(** ** The history manager *)

Record manager : Type := Manager {
  history_file : path;
  history_folder : path;
}.

(** The result object of the analysis engine, with the attributes the
    manager reads.  The attributes it reads through [hasattr]/[getattr]
    may be missing ([None] here); a report path may be Python's [None]. *)
Record analysis_result : Type := AnalysisResult {
  preservation_hash : json;
  summary : json;
  metadata : json;
  forensic_evidence_matrix : option json;
  localization_details : option json;
  pipeline_assessment : option json;
  localizations : list json;
  plots : pydict;
  pdf_report_path : option string;
  html_report_path : option (option string);
  json_report_path : option (option string);
}.

(** [HistoryManager.__init__]. *)
Definition __init__ (file folder : string) : M manager :=
  let self := Manager (Path file) (Path folder) in
  let* _ := mkdir_exist_ok (history_folder self) in
  (* CREATE TABLE IF NOT EXISTS settings: the table is [settings] *)
  let* present := path_exists (history_file self) in
  let* _ := if (present : bool) then ret tt
            else json_dump_to (history_file self) (JList []) in
  ret self.

(** [load_history]. *)
Definition load_handled (e : exn) : bool :=
  match e with
  | JSONDecodeError | FileNotFoundError => true
  | _ => false
  end.

Definition load_history (self : manager) : M json :=
  try_except
    (let* d := read_file (history_file self) in json_load d)
    load_handled
    (let* _ := json_dump_to (history_file self) (JList []) in ret (JList [])).

(** [next((entry for entry in history if entry\["id"\] == analysis_id), None)]. *)
Fixpoint find_by_id (analysis_id : string) (l : list json) : res (option json) :=
  match l with
  | [] => Ok None
  | entry :: l' =>
      let? v := py_item entry "id" in
      if py_eq_str v analysis_id then Ok (Some entry)
      else find_by_id analysis_id l'
  end.

(** [get_analysis]. *)
Definition get_analysis (self : manager) (analysis_id : string) : M (option json) :=
  let* history := load_history self in
  let* l := lift (py_iter history) in
  lift (find_by_id analysis_id l).

(** [\[entry for entry in history if entry\["id"\] != analysis_id\]]. *)
Fixpoint other_ids (analysis_id : string) (l : list json) : res (list json) :=
  match l with
  | [] => Ok []
  | entry :: l' =>
      let? v := py_item entry "id" in
      let? rest := other_ids analysis_id l' in
      Ok (if py_eq_str v analysis_id then rest else entry :: rest)
  end.

(** [Path(x)]. *)
Definition py_Path (x : json) : res path :=
  match x with
  | JStr s => Ok (Path s)
  | _ => Raise TypeError
  end.

(** [delete_analysis]. *)
Definition delete_analysis (self : manager) (analysis_id : string) : M bool :=
  let* history := load_history self in
  let* entry_to_delete := get_analysis self analysis_id in
  match entry_to_delete with
  | None => ret false
  | Some entry =>
      if negb (truthy entry) then ret false
      else
        let* folder := lift (py_get entry "artifacts_folder" (JStr nil_str)) in
        let* artifact_folder := lift (py_Path folder) in
        let* present := path_exists artifact_folder in
        let* is_dir := if (present : bool) then path_is_dir artifact_folder
                       else ret false in
        let* _ := if (present && is_dir)%bool then rmtree artifact_folder
                  else ret tt in
        let* l := lift (py_iter history) in
        let* updated_history := lift (other_ids analysis_id l) in
        let* _ := json_dump_to (history_file self) (JList updated_history) in
        ret true
  end.

(** [delete_all_history]. *)
Definition delete_all_history (self : manager) : M nat :=
  let* history := load_history self in
  let* count := lift (py_len history) in
  let* present := path_exists (history_folder self) in
  let* _ := if (present : bool) then rmtree (history_folder self) else ret tt in
  let* _ := mkdir_exist_ok (history_folder self) in
  let* _ := json_dump_to (history_file self) (JList []) in
  ret count.

(** [_count_anomaly_types]: the counters are a dict from kind to int. *)
Definition initial_counts : list (string * Z) :=
  [("duplication", 0); ("insertion", 0); ("discontinuity", 0)].

Definition count_loc (loc : json) (counts : list (string * Z)) : res (list (string * Z)) :=
  let? event := py_get loc "event" (JStr nil_str) in
  let? event_type := py_replace event "anomaly_" nil_str in
  match dict_lookup counts event_type with
  | Some n => Ok (dict_set counts event_type (n + 1))
  | None => Ok counts
  end.

Fixpoint count_locs (locs : list json) (counts : list (string * Z))
  : res (list (string * Z)) :=
  match locs with
  | [] => Ok counts
  | loc :: locs' =>
      let? counts' := count_loc loc counts in
      count_locs locs' counts'
  end.

Definition _count_anomaly_types (result : analysis_result) : res (list (string * Z)) :=
  count_locs (localizations result) initial_counts.

Definition counts_json (counts : list (string * Z)) : json :=
  JDict (map (fun kv => (fst kv, JInt (snd kv))) counts).

(** [_save_artifacts], loop by loop. *)
Definition copy_into (folder : path) (source : string) (target_name : string)
    (key : string) (saved : pydict) : M pydict :=
  let target_path := path_div folder target_name in
  let* _ := shutil_copy (Path source) target_path in
  ret (dict_set saved key (JStr (path_str target_path))).

(** One plot: [isinstance(plot_path, (str, Path)) and os.path.exists(plot_path)]. *)
Definition save_plot (folder : path) (plot : string * json) (saved : pydict) : M pydict :=
  match snd plot with
  | JStr plot_path =>
      let* present := os_path_exists plot_path in
      if (present : bool)
      then copy_into folder plot_path (path_name (Path plot_path)) (fst plot) saved
      else ret saved
  | _ => ret saved
  end.

Fixpoint enumerate_from {A} (i : nat) (l : list A) : list (nat * A) :=
  match l with
  | [] => []
  | x :: l' => (i, x) :: enumerate_from (S i) l'
  end.

(** One of the first localizations: [loc.get('image') and
    os.path.exists(loc\['image'\])].  A truthy image that is not a string
    is rejected by [os.path.exists] (an integer would be read as a file
    descriptor; descriptors are not part of the world). *)
Definition save_frame (folder : path) (iloc : nat * json) (saved : pydict) : M pydict :=
  let i := fst iloc in
  let* image := lift (py_get (snd iloc) "image" JNull) in
  if truthy image then
    match image with
    | JStr image_path =>
        let* present := os_path_exists image_path in
        if (present : bool)
        then copy_into folder image_path
               ("sample_anomaly_frame_" +:+ pretty i +:+ ".jpg")
               ("anomaly_frame_" +:+ pretty i) saved
        else ret saved
    | _ => raise TypeError
    end
  else ret saved.

(** One generated report: [getattr(result, attr, None) and
    os.path.exists(...)]. *)
Definition save_report (folder : path) (key : string) (report : option string)
    (saved : pydict) : M pydict :=
  match report with
  | Some report_path =>
      if truthy (JStr report_path) then
        let* present := os_path_exists report_path in
        if (present : bool)
        then copy_into folder report_path (path_name (Path report_path)) key saved
        else ret saved
      else ret saved
  | None => ret saved
  end.

Definition attr_or_none (a : option (option string)) : option string :=
  match a with Some v => v | None => None end.

Definition _save_artifacts (result : analysis_result) (folder : path) : M pydict :=
  let* saved := for_each (plots result) (save_plot folder) [] in
  let* saved := for_each (enumerate_from 0 (take 3 (localizations result)))
                         (save_frame folder) saved in
  let* saved := save_report folder "pdf_report" (pdf_report_path result) saved in
  let* saved := save_report folder "html_report"
                            (attr_or_none (html_report_path result)) saved in
  let* saved := save_report folder "json_report"
                            (attr_or_none (json_report_path result)) saved in
  ret saved.

(** The [INSERT INTO settings] of [save_analysis]; [id] is the primary key. *)
Definition info_get (additional_info : json) (k : string) : res json :=
  if truthy additional_info then py_get additional_info k JNull else Ok JNull.

Definition sql_value (v : json) : res json :=
  match v with
  | JList _ | JDict _ => Raise InterfaceError
  | _ => Ok v
  end.

Definition insert_settings (analysis_id video_name timestamp : string)
    (additional_info : json) : M unit :=
  let* fps_awal := lift (info_get additional_info "fps_awal") in
  let* fps_baru := lift (info_get additional_info "fps_baru") in
  let* ssim := lift (info_get additional_info "ssim_threshold") in
  let* z := lift (info_get additional_info "z_threshold") in
  let* fps_awal := lift (sql_value fps_awal) in
  let* fps_baru := lift (sql_value fps_baru) in
  let* ssim := lift (sql_value ssim) in
  let* z := lift (sql_value z) in
  fun w =>
    if existsb (fun r => String.eqb (row_id r) analysis_id) (settings w)
    then (Raise IntegrityError, w)
    else (Ok tt,
          set_settings
            (fun rows => rows ++ [SettingsRow analysis_id video_name timestamp
                                    fps_awal fps_baru ssim z])%list w).

(** [str(path) if path else None] and [str(getattr(result, attr, '')) or None]. *)
Definition pdf_entry (p : option string) : json :=
  match p with
  | Some s => if truthy (JStr s) then JStr s else JNull
  | None => JNull
  end.

Definition report_entry (a : option (option string)) : json :=
  let text := match a with
              | None => nil_str
              | Some None => "None"
              | Some (Some s) => s
              end in
  if truthy (JStr text) then JStr text else JNull.

Definition or_null (o : option json) : json :=
  match o with Some v => v | None => JNull end.

(** The dict that [save_analysis] assembles. *)
Definition history_entry (analysis_id timestamp video_name : string)
    (artifact_folder : path) (result : analysis_result)
    (counts : list (string * Z)) (saved_artifacts : pydict)
    (additional_info : json) : json :=
  JDict
    [ ("id", JStr analysis_id);
      ("timestamp", JStr timestamp);
      ("video_name", JStr video_name);
      ("artifacts_folder", JStr (path_str artifact_folder));
      ("preservation_hash", preservation_hash result);
      ("summary", summary result);
      ("metadata", metadata result);
      ("forensic_evidence_matrix", or_null (forensic_evidence_matrix result));
      ("localization_details", or_null (localization_details result));
      ("pipeline_assessment", or_null (pipeline_assessment result));
      ("localizations", JList (localizations result));
      ("localizations_count", JInt (Z.of_nat (length (localizations result))));
      ("anomaly_types", counts_json counts);
      ("saved_artifacts", JDict saved_artifacts);
      ("additional_info",
        if truthy additional_info then additional_info else JDict []);
      ("report_paths",
        JDict [ ("pdf", pdf_entry (pdf_report_path result));
                ("html", report_entry (html_report_path result));
                ("json", report_entry (json_report_path result)) ]) ].

(** [history.append(entry)]: a method of [list] alone. *)
Definition py_append (history entry : json) : res json :=
  match history with
  | JList l => Ok (JList (l ++ [entry]))
  | _ => Raise AttributeError
  end.

(** [save_analysis]. *)
Definition save_analysis (self : manager) (result : analysis_result)
    (video_name : string) (additional_info : json) : M string :=
  let* analysis_id := uuid4 in
  let artifact_folder := path_div (history_folder self) analysis_id in
  let* _ := mkdir_exist_ok artifact_folder in
  let* saved_artifacts := _save_artifacts result artifact_folder in
  let* timestamp := now_isoformat in
  let* counts := lift (_count_anomaly_types result) in
  let entry := history_entry analysis_id timestamp video_name artifact_folder
                 result counts saved_artifacts additional_info in
  let* history := load_history self in
  let* history := lift (py_append history entry) in
  let* _ := json_dump_to (history_file self) history in
  let* _ := try_except
              (insert_settings analysis_id video_name timestamp additional_info)
              (fun _ => true) (ret tt) in
  ret analysis_id.

(** ** The report renderer and the export

    The text that Python's own formatting produces for floats, for the
    [repr] of a string, for [strftime] and for [str.title] is not
    computed here: those functions are parameters of the section.  Text
    is a sequence of bytes, as in [String.string]. *)

Section Report.

Variable float_repr : float -> string.          (* repr(f) *)
Variable str_repr : string -> string.           (* repr(s) *)
Variable float_fmt2 : float -> string.          (* format(f, '.2f') *)
Variable int_fmt2 : Z -> res string.            (* format(n, '.2f') *)
Variable strftime_iso : string -> option string.
  (* datetime.fromisoformat(s).strftime("%d %B %Y, %H:%M:%S"), [None]
     when [fromisoformat] raises ValueError *)
Variable str_title : string -> string.          (* s.title() *)

(** [repr(v)] and [str(v)] of a value read from JSON. *)
Fixpoint py_repr (v : json) : string :=
  match v with
  | JNull => "None"
  | JBool b => if b then "True" else "False"
  | JInt n => pretty n
  | JFloat f => float_repr f
  | JStr s => str_repr s
  | JList l => "[" +:+ String.concat ", " (map py_repr l) +:+ "]"
  | JDict d =>
      "{" +:+ String.concat ", "
                (map (fun '(k, x) => str_repr k +:+ ": " +:+ py_repr x) d) +:+ "}"
  end.

Definition py_str (v : json) : string :=
  match v with
  | JStr s => s
  | _ => py_repr v
  end.

(** [format(v, '.2f')]. *)
Definition format_2f (v : json) : res string :=
  match v with
  | JInt n => int_fmt2 n
  | JBool b => int_fmt2 (if b then 1 else 0)
  | JFloat f => Ok (float_fmt2 f)
  | JStr _ => Raise ValueError
  | _ => Raise TypeError
  end.

(** [_format_timestamp]: ValueError and TypeError fall back to the input. *)
Definition _format_timestamp (iso_timestamp : json) : json :=
  match iso_timestamp with
  | JStr s =>
      match strftime_iso s with
      | Some text => JStr text
      | None => iso_timestamp
      end
  | _ => iso_timestamp
  end.

(** [get_anomaly_description]. *)
Record description : Type := Description {
  d_title : string;
  d_icon : string;
  d_color : string;
  d_simple : string;
  d_technical : string;
  d_implication : string;
  d_example : string;
}.

Definition get_anomaly_description (anomaly_type : string) : description :=
  if String.eqb anomaly_type "duplication" then
    Description "Duplikasi Frame" "üîÅ" "#FF6B6B"
      "Frame yang sama diulang beberapa kali dalam video."
      "Dideteksi melalui perbandingan pHash dan dikonfirmasi dengan SIFT+RANSAC yang menemukan kecocokan fitur yang sangat tinggi antar frame."
      "Ini bisa menjadi indikasi untuk memperpanjang durasi secara artifisial atau untuk menyembunyikan/menutupi konten yang telah dihapus di antara frame yang diduplikasi."
      "Seperti Anda menyalin sebuah halaman dari buku dan menempelkannya lagi di tempat lain untuk membuat buku terlihat lebih tebal."
  else if String.eqb anomaly_type "discontinuity" then
    Description "Diskontinuitas Video" "‚úÇÔ∏è" "#45B7D1"
      "Terjadi 'lompatan' atau patahan mendadak dalam aliran visual atau gerakan video."
      "Dideteksi melalui penurunan drastis pada skor SSIM (kemiripan struktural) atau lonjakan tajam pada magnitudo Optical Flow (aliran gerakan)."
      "Seringkali ini adalah tanda kuat dari pemotongan (cut) dan penyambungan (paste) video. Aliran alami video terganggu."
      "Bayangkan sebuah kalimat di mana beberapa kata di tengahnya hilang, membuat kalimatnya terasa aneh dan melompat."
  else if String.eqb anomaly_type "insertion" then
    Description "Penyisipan Konten" "‚ûï" "#4ECDC4"
      "Adanya frame atau segmen baru yang tidak ada di video asli/baseline."
      "Dideteksi secara definitif dengan membandingkan hash setiap frame dari video bukti dengan video baseline. Frame yang ada di bukti tapi tidak di baseline dianggap sebagai sisipan."
      "Ini adalah bukti kuat dari penambahan konten yang bisa mengubah konteks atau narasi video secara signifikan."
      "Seperti menambahkan sebuah paragraf karangan Anda sendiri ke tengah-tengah novel karya orang lain."
  else
    Description "Anomali Lain" "‚ùì" "#808080"
      "Jenis anomali tidak dikenali."
      "-" "-" "-".

(** The nested helper [section_header]. *)
Definition section_header (title : string) (level : nat) : string :=
  "<h" +:+ pretty level
  +:+ " style='color:#0B3D91;border-bottom:1px solid #ddd;padding-bottom:8px;margin-top:25px;'>"
  +:+ title +:+ "</h" +:+ pretty level +:+ ">".

(** The nested helper [get_artifact_relative_path]. *)
Definition get_artifact_relative_path (entry : json) (path_key : string)
  : res (option string) :=
  let? saved := py_get entry "saved_artifacts" (JDict []) in
  let? present := py_contains path_key saved in
  if (present : bool) then
    let? saved := py_item entry "saved_artifacts" in
    let? stored := py_item saved path_key in
    let? p := py_Path stored in
    Ok (Some ("artifacts/" +:+ path_name p))
  else Ok None.

Fixpoint concat_res {A} (f : A -> res (list string)) (l : list A) : res (list string) :=
  match l with
  | [] => Ok []
  | x :: l' =>
      let? lines := f x in
      let? rest := concat_res f l' in
      Ok (lines ++ rest)%list
  end.

Definition style_lines : list string :=
  [
    "    <style>";
    "        body { font-family: 'Segoe UI', Tahoma, Geneva, Verdana, sans-serif; line-height: 1.6; color: #333; max-width: 1200px; margin: 0 auto; padding: 20px; }";
    "        h1, h2, h3, h4 { color: #0B3D91; }";
    "        h1 { text-align: center; border-bottom: 2px solid #0B3D91; padding-bottom: 10px; }";
    "        img { max-width: 100%; height: auto; border-radius: 5px; margin: 15px 0; box-shadow: 0 2px 5px rgba(0,0,0,0.1); }";
    "        .metadata { background-color: #f8f9fa; padding: 15px; border-radius: 8px; margin: 20px 0; border-left: 5px solid #0B3D91; }";
    "        .reliability-badge { display: inline-block; padding: 8px 15px; color: white; font-weight: bold; border-radius: 4px; margin: 10px 0; }";
    "        .two-column { display: flex; flex-wrap: wrap; gap: 20px; }";
    "        .two-column > div { flex: 1; min-width: 300px; }";
    "        .explanation-box { background-color: #f0f7ff; padding: 15px; border-radius: 8px; margin: 15px 0; border-left: 4px solid #0c6dd6; }";
    "        .disclaimer { background-color: #ffe6cc; padding: 15px; border-radius: 8px; margin: 20px 0; font-style: italic; }";
    "        .method-card { background-color: white; border: 1px solid #ddd; border-radius: 8px; padding: 15px; margin: 10px 0; }";
    "        .method-card h3 { margin-top: 0; border-bottom: 1px solid #eee; padding-bottom: 8px; }";
    "        .anomaly-type { margin-bottom: 20px; padding-bottom: 10px; border-bottom: 1px solid #eee; }";
    "        .findings-section { background-color: #f8f9fa; padding: 20px; border-radius: 8px; margin: 20px 0; }";
    "        .metric { display: inline-block; background-color: #e9ecef; padding: 5px 10px; border-radius: 4px; margin: 3px; font-size: 0.9em; }";
    "        .footer { text-align: center; margin-top: 40px; padding-top: 20px; border-top: 1px solid #ddd; font-size: 0.9em; color: #666; }";
    "    </style>"
  ].

Definition summary_lines : list string :=
  [
    "<p>Analisis forensik video ini dilakukan menggunakan metodologi standar Digital Forensics Research Workshop (DFRWS) yang ";
    "terdiri dari enam tahap: Identifikasi, Preservasi, Pengumpulan, Pemeriksaan, Analisis, dan Pelaporan. ";
    "Sistem menggunakan metode utama <strong>K-Means</strong> dan <strong>Localization Tampering</strong> dengan ";
    "dukungan <strong>Error Level Analysis (ELA)</strong> dan <strong>Scale-Invariant Feature Transform (SIFT)</strong>.</p>"
  ].

Definition disclaimer_lines : list string :=
  [
    "<div class='disclaimer'>";
    "    <p><strong>CATATAN PENTING:</strong> Hasil analisis yang disajikan dalam laporan ini adalah produk dari sistem otomatis ";
    "    forensik video. Meskipun dirancang menggunakan metodologi dan algoritma ilmiah, semua temuan harus divalidasi dan ";
    "    diinterpretasikan lebih lanjut oleh ahli forensik video yang berkualifikasi. Sistem hanya dapat mengidentifikasi anomali ";
    "    berdasarkan pola statistik dan visual; interpretasi akhir tentang implikasi forensik dan konteks faktual dari anomali ";
    "    tersebut memerlukan penilaian manusia.</p>";
    "</div>"
  ].

Record phase : Type := Phase { ph_name : string; ph_icon : string; ph_desc : string }.

Definition dfrws_phases : list phase :=
  [
    Phase "Identifikasi" "üîç"
      "Mengidentifikasi bukti potensial (video) dan metadata-nya.";
    Phase "Preservasi" "üõ°Ô∏è"
      "Menjaga integritas bukti dengan hash SHA-256 dan penyimpanan frame asli.";
    Phase "Pengumpulan" "üì•"
      "Ekstraksi frame, normalisasi warna, dan penghitungan pHash.";
    Phase "Pemeriksaan" "üî¨"
      "Analisis temporal, K-Means, Error Level Analysis, dan SIFT+RANSAC.";
    Phase "Analisis" "üìà"
      "Localization Tampering dan Forensic Evidence Reliability Matrix (FERM).";
    Phase "Pelaporan" "üìÑ"
      "Dokumentasi sistematis temuan dengan visualisasi dan penjelasan."
  ].

Record visual : Type := Visual { v_key : string; v_title : string; v_desc : string }.

Definition timeline_visuals : list visual :=
  [
    Visual "kmeans_temporal" "Klasterisasi Warna K-Means Sepanjang Waktu"
      "Menunjukkan perpindahan antar klaster warna yang dapat mengindikasikan perubahan adegan atau diskontinuitas.";
    Visual "ssim_temporal" "Analisis Structural Similarity Index (SSIM)"
      "Menampilkan perubahan kemiripan struktural antar frame berurutan. Penurunan tajam mengindikasikan diskontinuitas.";
    Visual "optical_flow_temporal" "Analisis Aliran Optik (Optical Flow)"
      "Mengukur pergerakan piksel antar frame. Lonjakan besar menandakan gerakan abnormal yang mungkin akibat manipulasi."
  ].

Definition enhanced_maps : list visual :=
  [
    Visual "enhanced_localization_map" "Peta Lokalisasi Tampering"
      "Visualisasi komprehensif yang menunjukkan lokasi, durasi, dan tingkat kepercayaan peristiwa anomali dalam video.";
    Visual "anomaly_infographic" "Infografis Penjelasan Anomali"
      "Penjelasan visual tentang berbagai jenis anomali, metode deteksinya, dan implikasi forensiknya."
  ].

Definition ferm_visuals : list visual :=
  [
    Visual "ferm_evidence_strength" "Kekuatan Bukti FERM"
      "Menunjukkan efektivitas relatif dari berbagai metode deteksi untuk setiap jenis anomali.";
    Visual "ferm_reliability" "Faktor-faktor Reliabilitas FERM"
      "Menampilkan faktor-faktor yang berkontribusi positif atau negatif terhadap penilaian keandalan bukti."
  ].

(** One visualisation block; the image path, when there is one, is never
    empty, so [if img_path:] is the test for [None]. *)
Definition visual_block (entry : json) (tag : string) (rule : list string)
    (v : visual) : res (list string) :=
  let? img_path := get_artifact_relative_path entry (v_key v) in
  match img_path with
  | Some img =>
      Ok ([ "<" +:+ tag +:+ ">" +:+ v_title v +:+ "</" +:+ tag +:+ ">";
            "<p>" +:+ v_desc v +:+ "</p>";
            "<img src='" +:+ img +:+ "' alt='" +:+ v_title v +:+ "'>" ] ++ rule)%list
  | None => Ok []
  end.

Definition finding_lines (finding : json) : res (list string) :=
  let? what := py_get finding "finding" (JStr nil_str) in
  let? confidence := py_get finding "confidence" (JStr "N/A") in
  let? interpretation := py_get finding "interpretation" (JStr nil_str) in
  Ok [ "<li><strong>" +:+ py_str what +:+ "</strong> (" +:+ py_str confidence +:+ ")";
       "<p><em>Interpretasi:</em> " +:+ py_str interpretation +:+ "</p></li>" ].

Definition primary_findings_lines (ferm : json) : res (list string) :=
  let? conclusion := py_get ferm "conclusion" (JDict []) in
  let? primary_findings := py_get conclusion "primary_findings" (JList []) in
  if truthy primary_findings then
    let? findings := py_iter primary_findings in
    let? items := concat_res finding_lines findings in
    Ok ([ "<div class='findings-section'>"; "<h3>Temuan Utama:</h3>"; "<ul>" ]
        ++ items ++ [ "</ul>"; "</div>" ])%list
  else Ok [].

Definition phase_lines (p : phase) : list string :=
  [ "<div class='method-card'>";
    "<h3>" +:+ ph_icon p +:+ " " +:+ ph_name p +:+ "</h3>";
    "<p>" +:+ ph_desc p +:+ "</p>";
    "</div>" ].

(** The first of the three sample frames that was stored ([break]). *)
Fixpoint evidence_lines (entry : json) (keys : list string) : res (list string) :=
  match keys with
  | [] => Ok []
  | artifact_key :: keys' =>
      let? img_path := get_artifact_relative_path entry artifact_key in
      match img_path with
      | Some img =>
          Ok [ "<p><strong>Bukti Visual:</strong></p>";
               "<img src='" +:+ img +:+ "' alt='Bukti visual anomali'>" ]
      | None => evidence_lines entry keys'
      end
  end.

Definition metric_line (kv : string * json) : string :=
  "<span class='metric'>" +:+ str_title (str_replace "_" " " (fst kv))
  +:+ ": " +:+ py_str (snd kv) +:+ "</span>".

(** [if loc.get("metrics"): ... loc\["metrics"\].items()]. *)
Definition metrics_lines (loc : json) : res (list string) :=
  let? metrics := py_get loc "metrics" JNull in
  if truthy metrics then
    match metrics with
    | JDict d =>
        Ok ([ "<p><strong>Metrik Teknis:</strong></p>"; "<div>" ]
            ++ map metric_line d ++ [ "</div>" ])%list
    | _ => Raise AttributeError
    end
  else Ok [].

Definition localization_lines (entry : json) (iloc : nat * json) : res (list string) :=
  let i := fst iloc in
  let loc := snd iloc in
  let? event := py_get loc "event" (JStr nil_str) in
  let? event_type := py_replace event "anomaly_" nil_str in
  let anomaly_desc := get_anomaly_description event_type in
  let? start_ts := py_get loc "start_ts" (JInt 0) in
  let? start_ts := format_2f start_ts in
  let? end_ts := py_get loc "end_ts" (JInt 0) in
  let? end_ts := format_2f end_ts in
  let? duration := py_get loc "duration" (JInt 0) in
  let? duration := format_2f duration in
  let? confidence := py_get loc "confidence" (JStr "N/A") in
  let? evidence := evidence_lines entry
                     ["anomaly_frame_0"; "anomaly_frame_1"; "anomaly_frame_2"] in
  let? metrics := metrics_lines loc in
  Ok ([ "<div class='anomaly-type'>";
        "<h3>" +:+ d_icon anomaly_desc +:+ " Peristiwa #" +:+ pretty (S i) +:+ ": "
          +:+ d_title anomaly_desc +:+ "</h3>";
        "<p><strong>Lokasi:</strong> " +:+ start_ts +:+ "s - " +:+ end_ts
          +:+ "s (Durasi: " +:+ duration +:+ "s)</p>";
        "<p><strong>Tingkat Kepercayaan:</strong> " +:+ py_str confidence +:+ "</p>";
        "<div class='explanation-box'>";
        "<p><strong>Penjelasan:</strong> " +:+ d_simple anomaly_desc +:+ "</p>";
        "<p><strong>Implikasi Forensik:</strong> " +:+ d_implication anomaly_desc +:+ "</p>";
        "</div>" ]
      ++ evidence ++ metrics ++ [ "</div>" ])%list.

Definition anomaly_section (entry localizations : json) : res (list string) :=
  if truthy localizations then
    let? n := py_len localizations in
    let? locs := py_iter localizations in
    let? blocks := concat_res (localization_lines entry) (enumerate_from 0 locs) in
    Ok ([ section_header "Detail Peristiwa Anomali" 2;
          "<p>Analisis menemukan <strong>" +:+ pretty n
            +:+ " peristiwa anomali</strong> dalam video ini:</p>" ] ++ blocks)%list
  else
    Ok [ section_header "Tidak Ditemukan Anomali Signifikan" 2;
         "<p>Analisis forensik tidak menemukan bukti anomali yang signifikan dalam video ini.</p>" ].

Definition conclusion_line (video_name reliability : string) (n : nat) : string :=
  "<p>Berdasarkan analisis forensik 5 tahap yang telah dilakukan, video " +:+ dq
  +:+ video_name +:+ dq +:+ " memiliki penilaian reliabilitas " +:+ dq
  +:+ reliability +:+ dq
  +:+ (if (0 <? n)%nat
       then ". Sistem telah mendeteksi " +:+ pretty n
            +:+ " peristiwa anomali yang memerlukan perhatian.</p>"
       else ". Sistem tidak mendeteksi adanya peristiwa anomali yang signifikan dalam video ini.</p>").

(** The body of [_generate_html_report], in the order of the source. *)
Definition report_lines (entry : json) : res (list string) :=
  let? ferm := py_get entry "forensic_evidence_matrix" (JDict []) in
  let? conclusion := py_get ferm "conclusion" (JDict []) in
  let? reliability := py_get conclusion "reliability_assessment" (JStr "N/A") in
  let? video_name := py_get entry "video_name" (JStr "Unnamed Video") in
  let? timestamp := py_get entry "timestamp" (JStr "Unknown Date") in
  let? high := py_contains "Tinggi" reliability in
  let? reliability_color :=
    if (high : bool) then Ok "#28a745"
    else
      let? medium := py_contains "Sedang" reliability in
      Ok (if (medium : bool) then "#ffc107" else "#dc3545") in
  let? hash := py_get entry "preservation_hash" (JStr "N/A") in
  let? hash := py_slice_to 20 hash in
  let? findings := primary_findings_lines ferm in
  let? timeline := concat_res (visual_block entry "h3" ["<hr>"]) timeline_visuals in
  let? maps := concat_res (visual_block entry "h3" ["<hr>"]) enhanced_maps in
  let? ferm_blocks := concat_res (visual_block entry "h4" []) ferm_visuals in
  let? localizations := py_get entry "localizations" (JList []) in
  let? anomalies := anomaly_section entry localizations in
  let? n := py_len localizations in
  Ok ([ "<!DOCTYPE html>";
        "<html lang='id'>";
        "<head>";
        "    <meta charset='utf-8'>";
        "    <meta name='viewport' content='width=device-width, initial-scale=1.0'>";
        "    <title>Laporan Forensik Video - " +:+ py_str video_name +:+ "</title>" ]
      ++ style_lines
      ++ [ "</head>";
           "<body>";
           "<h1>Laporan Analisis Forensik Video</h1>";
           "<div class='metadata'>";
           "    <p><strong>File:</strong> " +:+ py_str video_name +:+ "</p>";
           "    <p><strong>Waktu Analisis:</strong> "
             +:+ py_str (_format_timestamp timestamp) +:+ "</p>";
           "    <p><strong>Hash SHA-256:</strong> " +:+ py_str hash +:+ "...</p>";
           "    <p><strong>Penilaian Reliabilitas:</strong> <span class='reliability-badge' style='background-color:"
             +:+ reliability_color +:+ "'>" +:+ py_str reliability +:+ "</span></p>";
           "</div>";
           section_header "Ringkasan Eksekutif" 2 ]
      ++ summary_lines
      ++ disclaimer_lines
      ++ findings
      ++ [ section_header "Metodologi DFRWS" 2;
           "<p>Analisis forensik video ini mengikuti kerangka kerja DFRWS yang terstruktur dalam enam tahap berikut:</p>";
           "<div class='two-column'>" ]
      ++ concat (map phase_lines dfrws_phases)
      ++ [ "</div>";
           section_header "Visualisasi Analisis Utama" 2;
           "<p>Berikut adalah visualisasi-visualisasi kunci dari hasil analisis forensik:</p>" ]
      ++ timeline
      ++ maps
      ++ [ "<h3>Analisis Matriks Keandalan Bukti Forensik (FERM)</h3>";
           "<p>FERM adalah pendekatan multi-dimensi untuk menilai keandalan bukti forensik, mempertimbangkan faktor kekuatan bukti, karakteristik anomali, dan analisis kausalitas.</p>" ]
      ++ ferm_blocks
      ++ anomalies
      ++ [ section_header "Kesimpulan" 2;
           conclusion_line (py_str video_name) (py_str reliability) n;
           "<p>PENTING: Hasil analisis ini adalah produk dari sistem otomatis, dan meskipun menggunakan metodologi DFRWS yang diakui secara profesional, penting untuk dipahami bahwa penilaian akhir dan interpretasi temuan memerlukan validasi dan analisis lebih lanjut oleh ahli forensik video berkualifikasi. Sistem hanya menganalisis temuan yang terdeteksi melalui algoritma; interpretasi kontekstual dan legal dari temuan tersebut berada di luar kemampuan sistem dan memerlukan penilaian manusia.</p>";
           "<div class='footer'>";
           "    <p>Laporan ini dihasilkan oleh Sistem VIFA-Pro pada "
             +:+ py_str (_format_timestamp timestamp) +:+ "</p>";
           "    <p>¬© VIFA-Pro - Sistem Deteksi Forensik Keaslian Video</p>";
           "</div>";
           "</body>";
           "</html>" ])%list.

(** [_generate_html_report]: the lines joined by newlines. *)
Definition newline : string := String (ascii_of_nat 10) EmptyString.

Definition _generate_html_report (entry : json) : M string :=
  let* lines := lift (report_lines entry) in
  ret (String.concat newline lines).

(** ** The export packager *)

(** What an archive member holds: text, the [json.dumps] text of a
    value, or the bytes of a file. *)
Inductive payload : Type :=
| ZText (s : string)
| ZJson (v : json)
| ZFile (d : fdata).

Definition archive_member (artifact : path * fdata) : string * payload :=
  ("artifacts/" +:+ path_name (fst artifact), ZFile (snd artifact)).

(** [export_analysis]: the members of the archive in the order written,
    [None] when there is no record. *)
Definition export_analysis (self : manager) (analysis_id : string)
  : M (option (list (string * payload))) :=
  let* found := get_analysis self analysis_id in
  match found with
  | None => ret None
  | Some entry =>
      if negb (truthy entry) then ret None
      else
        let* html_report := _generate_html_report entry in
        let* folder := lift (py_get entry "artifacts_folder" (JStr nil_str)) in
        let* artifact_folder := lift (py_Path folder) in
        let* present := path_exists artifact_folder in
        let* artifacts := if (present : bool) then glob_files artifact_folder
                          else ret [] in
        ret (Some ([ ("analysis_report.json", ZJson entry);
                     ("analysis_report.html", ZText html_report) ]
                   ++ map archive_member artifacts)%list)
  end.

End Report.

(** ** Vocabulary of the statements *)

(** The kind under which [_count_anomaly_types] counts a localization:
    its event tag with every occurrence of [anomaly_] deleted. *)
Definition event_kind (loc : json) : option string :=
  match py_get loc "event" (JStr nil_str) with
  | Ok (JStr tag) => Some (str_replace "anomaly_" nil_str tag)
  | _ => None
  end.

Definition kind_count (kind : string) (locs : list json) : Z :=
  Z.of_nat (length (filter (fun loc => event_kind loc = Some kind) locs)).

(** The same count when only a leading [anomaly_] is removed from the
    tag, as [str.removeprefix] would. *)
Fixpoint str_drop (n : nat) (s : string) : string :=
  match n, s with
  | S k, String _ s' => str_drop k s'
  | _, _ => s
  end.

Definition remove_prefix (p s : string) : string :=
  if String.prefix p s then str_drop (String.length p) s else s.

Definition prefix_kind (loc : json) : option string :=
  match py_get loc "event" (JStr nil_str) with
  | Ok (JStr tag) => Some (remove_prefix "anomaly_" tag)
  | _ => None
  end.

Definition prefix_count (kind : string) (locs : list json) : Z :=
  Z.of_nat (length (filter (fun loc => prefix_kind loc = Some kind) locs)).

(** The collection that the history file holds. *)
Definition stored (self : manager) (w : world) : option json :=
  match stat (fs w) (history_file self) with
  | Some (File (JsonText v)) => Some v
  | _ => None
  end.

(** Sample data: a world with nothing on disk, the manager with the
    default names, and the result of the specification's example. *)
Definition empty_world : world :=
  World ∅ ∅ []
        (fun n => "0f8fad5b-d9cb-469f-a165-70867728950" +:+ pretty n) 0
        (fun n => "2025-06-01T10:00:0" +:+ pretty n) 0.

Definition default_manager : manager :=
  Manager (Path "analysis_history.json") (Path "analysis_artifacts").

Definition fresh_world : world :=
  snd (__init__ "analysis_history.json" "analysis_artifacts" empty_world).

Definition bare_result (locs : list json) : analysis_result :=
  AnalysisResult (JStr "9f86d081884c7d659a2feaa0c55ad015a3bf4f1b2b0b822cd15d6c15b0f00a08")
    (JDict []) (JDict []) None None None locs [] None None None.

Definition example_result : analysis_result :=
  bare_result
    [ JDict [ ("event", JStr "anomaly_duplication");
              ("start_ts", JFloat 1.0%float);
              ("end_ts", JFloat 2.5%float);
              ("duration", JFloat 1.5%float);
              ("confidence", JStr "High") ] ].

(** The names under which [_save_artifacts] stores a sample frame. *)
Definition frame_key (i : nat) : string := "anomaly_frame_" +:+ pretty i.

Definition frame_target (folder : path) (i : nat) : path :=
  path_div folder ("sample_anomaly_frame_" +:+ pretty i +:+ ".jpg").

(** A path, given as text, that [os.path.exists] finds on disk. *)
Definition resolvable (t : gmap path node) (s : string) : Prop :=
  s <> nil_str /\ is_Some (stat t (Path s)).

(** The image path that a localization carries. *)
Definition image_of (loc : json) : option string :=
  match py_get loc "image" JNull with
  | Ok (JStr s) => Some s
  | _ => None
  end.



(** Nothing that was on disk in [t] is missing from [t']. *)
Definition grows (t t' : gmap path node) : Prop :=
  forall p, is_Some (stat t p) -> is_Some (stat t' p).



(** The records of [l] other than those with identifier [id]. *)
Definition has_id (analysis_id : string) (entry : json) : bool :=
  match py_item entry "id" with
  | Ok v => py_eq_str v analysis_id
  | Raise _ => false
  end.

Definition records_without (analysis_id : string) (l : list json) : list json :=
  List.filter (fun entry => negb (has_id analysis_id entry)) l.

(** Every record is a dict with an [id]. *)
Definition have_ids (l : list json) : Prop :=
  Forall (fun entry => exists v, py_item entry "id" = Ok v) l.


(** The world once the history file holds the empty collection. *)
Definition reset_store (self : manager) (w : world) : world :=
  set_fs (insert (history_file self) (File (JsonText (JList [])))) w.

(** Sample worlds for the record store: an unparseable history file; and
    one record whose artifact folder holds a file that the system refuses
    to unlink. *)
Definition corrupt_world : world :=
  set_fs (insert ["analysis_history.json"] (File (NotJson "{broken"))) fresh_world.

Definition one_record : json :=
  JDict [ ("id", JStr "run-1"); ("video_name", JStr "video.mp4");
          ("artifacts_folder", JStr "analysis_artifacts/run-1") ].

Definition one_record_world (locks : gset path) : world :=
  World (<[ ["analysis_history.json"] := File (JsonText (JList [one_record])) ]>
         (<[ ["analysis_artifacts"; "run-1"; "plot.png"] := File (NotJson "png") ]>
         (<[ ["analysis_artifacts"; "run-1"] := Dir ]>
         (<[ ["analysis_artifacts"] := Dir ]> ∅))))
        locks [] (entropy empty_world) 0 (clock empty_world) 0.

(** The records of the history file, none when it is missing or
    unparseable. *)
Definition records (self : manager) (w : world) : list json :=
  match stored self w with
  | Some (JList l) => l
  | _ => []
  end.



(** The invariant of the record store: every record has an [id], and no
    two records share one. *)
Definition unique_ids (l : list json) : Prop :=
  have_ids l /\ NoDup (map (fun entry => py_item entry "id") l).

(** Sample worlds for the export: the example result saved by a fresh
    manager (its record has no evidence matrix), and the same world once
    the artifact folder of that record has been removed. *)
Definition saved_world : world :=
  snd (save_analysis default_manager example_result "video.mp4" JNull fresh_world).

Definition saved_id : string := "0f8fad5b-d9cb-469f-a165-708677289500".

Definition saved_world_without_folder : world :=
  snd (rmtree ["analysis_artifacts"; saved_id] saved_world).


(** *** When [save_analysis] runs through *)

Fixpoint slash_free (s : string) : bool :=
  match s with
  | EmptyString => true
  | String c s' => negb (Ascii.eqb c slash) && slash_free s'
  end.

(** A file name: one proper part. *)
Definition file_name (name : string) : Prop :=
  is_absolute name = false /\ Path name = [name].







(** ** Vocabulary of the properties of whole runs *)

(** Every run of [m], whether it returns or raises, takes a world to one
    that [R] relates to it. *)
Definition preserves {A} (R : world -> world -> Prop) (m : M A) : Prop :=
  forall w r w', m w = (r, w') -> R w w'.

(** Nothing that was on disk is missing afterwards. *)
Definition never_removes (w w' : world) : Prop := grows (fs w) (fs w').

(** The paths that satisfy [P] hold afterwards what they held before. *)
Definition untouched (P : path -> Prop) (w w' : world) : Prop :=
  forall k, P k -> fs w' !! k = fs w !! k.

(** Sample data for whole runs: a fresh manager's world with a plot, a
    frame and a generated report on disk, and a result that names them
    (and one plot that is not there). *)
Definition studio_world : world :=
  set_fs (fun t =>
            <[ ["plots"; "kmeans.png"] := File (NotJson "kmeans plot") ]>
            (<[ ["plots"] := Dir ]>
            (<[ ["frames"; "a.jpg"] := File (NotJson "frame a") ]>
            (<[ ["frames"] := Dir ]>
            (<[ ["report.pdf"] := File (NotJson "pdf report") ]> t)))))
         fresh_world.

Definition studio_matrix : json :=
  JDict [ ("conclusion",
           JDict [ ("reliability_assessment", JStr "Reliabilitas Tinggi");
                   ("primary_findings",
                    JList [ JDict [ ("finding", JStr "Duplikasi frame");
                                    ("confidence", JStr "Tinggi");
                                    ("interpretation", JStr "Frame diulang") ] ]) ]) ].

Definition studio_result : analysis_result :=
  AnalysisResult
    (JStr "9f86d081884c7d659a2feaa0c55ad015a3bf4f1b2b0b822cd15d6c15b0f00a08")
    (JDict []) (JDict []) (Some studio_matrix) None None
    [ JDict [ ("event", JStr "anomaly_duplication");
              ("start_ts", JFloat 1.0%float); ("end_ts", JFloat 2.5%float);
              ("duration", JFloat 1.5%float); ("confidence", JStr "High");
              ("image", JStr "frames/a.jpg");
              ("metrics", JDict [ ("ssim_drop", JFloat 0.5%float) ]) ];
      JDict [ ("event", JStr "anomaly_other"); ("confidence", JStr "Low") ] ]
    [ ("kmeans_temporal", JStr "plots/kmeans.png");
      ("ssim_temporal", JStr "plots/ssim.png") ]
    (Some "report.pdf") None None.

Definition studio_saved : world :=
  snd (save_analysis default_manager studio_result "video.mp4" JNull studio_world).

(** A history file in which two records share an identifier. *)
Definition other_record : json :=
  JDict [ ("id", JStr "run-2"); ("video_name", JStr "second.mp4");
          ("artifacts_folder", JStr "analysis_artifacts/run-2") ].

Definition twin_record : json :=
  JDict [ ("id", JStr "run-1"); ("video_name", JStr "again.mp4");
          ("artifacts_folder", JStr "analysis_artifacts/run-1") ].

Definition twin_world : world :=
  set_fs (insert ["analysis_history.json"]
            (File (JsonText (JList [other_record; one_record; twin_record]))))
         fresh_world.

(** Stand-ins for the formatting functions of the renderer, for sample
    runs, and the archive of the saved sample. *)
Definition plain_render : json -> M string :=
  _generate_html_report (fun _ => "0.0") (fun s => s) (fun _ => "0.00")
    (fun _ => Ok "0.00") (fun _ => None) (fun s => s).

Definition plain_export : manager -> string -> M (option (list (string * payload))) :=
  export_analysis (fun _ => "0.0") (fun s => s) (fun _ => "0.00")
    (fun _ => Ok "0.00") (fun _ => None) (fun s => s).

Definition studio_archive : list (string * payload) :=
  match fst (plain_export default_manager saved_id studio_saved) with
  | Ok (Some members) => members
  | _ => []
  end.

(** A result whose second localization has no usable event tag. *)
Definition uncountable_result : analysis_result :=
  AnalysisResult
    (JStr "9f86d081884c7d659a2feaa0c55ad015a3bf4f1b2b0b822cd15d6c15b0f00a08")
    (JDict []) (JDict []) (Some studio_matrix) None None
    [ JDict [ ("event", JStr "anomaly_insertion") ];
      JDict [ ("event", JNull) ] ]
    [ ("kmeans_temporal", JStr "plots/kmeans.png") ]
    None None None.

(** ** Vocabulary of the rendering of saved results *)

(** A mapping whose values are all texts, as the paths of
    [saved_artifacts] are. *)
Definition texts (saved : pydict) : Prop :=
  Forall (fun kv => exists s, snd kv = JStr s) saved.

(** An evidence matrix that the report can read: its conclusion is a
    dict, the reliability assessment in it a text, and the primary
    findings a list of dicts (each of the three may be missing). *)
Definition matrix_ok (m : json) : Prop :=
  exists dc reliability findings,
    py_get m "conclusion" (JDict []) = Ok (JDict dc)
    /\ py_get (JDict dc) "reliability_assessment" (JStr "N/A") = Ok (JStr reliability)
    /\ py_get (JDict dc) "primary_findings" (JList []) = Ok (JList findings)
    /\ Forall (fun finding => exists d, finding = JDict d) findings.

(** A localization that the report can show, [fmt] being the formatting
    with two decimals: its event tag, if any, is a text, its three times
    (0 when missing) can be formatted, and its metrics, if truthy, are a
    dict. *)
Definition loc_renderable (fmt : json -> res string) (loc : json) : Prop :=
  is_Some (event_kind loc)
  /\ (forall key, key ∈ ["start_ts"; "end_ts"; "duration"] ->
        exists v text, py_get loc key (JInt 0) = Ok v /\ fmt v = Ok text)
  /\ (forall v, py_get loc "metrics" JNull = Ok v -> truthy v = true ->
        exists d, v = JDict d).

Definition renderable (fmt : json -> res string) (result : analysis_result) : Prop :=
  (exists m, forensic_evidence_matrix result = Some m /\ matrix_ok m)
  /\ (exists h, preservation_hash result = JStr h)
  /\ Forall (loc_renderable fmt) (localizations result).

(** * Properties *)

(** ** Sanity of the string and path functions *)

Example replace_event :
  str_replace "anomaly_" nil_str "anomaly_duplication" = "duplication".
Proof. reflexivity. Qed.

Example replace_inner :
  str_replace "anomaly_" nil_str "dupanomaly_lication" = "duplication".
Proof. reflexivity. Qed.

Example Path_nested : Path "analysis_artifacts/abc/plot.png"
                      = ["analysis_artifacts"; "abc"; "plot.png"].
Proof. reflexivity. Qed.

Example Path_trailing : path_name (Path "out/plots/") = "plots".
Proof. reflexivity. Qed.

Example Path_str_root : path_str (Path "/tmp/x") = "/tmp/x".
Proof. reflexivity. Qed.

(** ** Dicts *)



(** ** The monad *)

Lemma bind_ok {A B} (m : M A) (k : A -> M B) w b w' :
  bind m k w = (Ok b, w') ->
  exists a w1, m w = (Ok a, w1) /\ k a w1 = (Ok b, w').
Proof.
  unfold bind. destruct (m w) as [[a|e] w1]; intros H; [eauto | discriminate].
Qed.

Lemma bind_step {A B} (m : M A) (k : A -> M B) w a w1 :
  m w = (Ok a, w1) -> bind m k w = k a w1.
Proof. unfold bind. by intros ->. Qed.

Lemma bind_fail {A B} (m : M A) (k : A -> M B) w e w1 :
  m w = (Raise e, w1) -> bind m k w = (Raise e, w1).
Proof. unfold bind. by intros ->. Qed.

Lemma lift_ok {A} (r : res A) w a w' :
  lift r w = (Ok a, w') -> r = Ok a /\ w' = w.
Proof. unfold lift. intros [= -> ->]. auto. Qed.

Lemma ret_ok {A} (x : A) w a w' : ret x w = (Ok a, w') -> a = x /\ w' = w.
Proof. unfold ret. intros [= -> ->]. auto. Qed.

Lemma res_bind_ok {A B} (r : res A) (k : A -> res B) b :
  res_bind r k = Ok b -> exists a, r = Ok a /\ k a = Ok b.
Proof. destruct r; simpl; intros H; [eauto | discriminate]. Qed.

(** ** The file system *)

Lemma stat_lookup t p :
  p <> [] -> p <> ["/"] -> stat t p = t !! p.
Proof. intros H1 H2. unfold stat. case_decide; [tauto | done]. Qed.

Lemma stat_none t p : stat t p = None -> p <> [] /\ p <> ["/"] /\ t !! p = None.
Proof. unfold stat. case_decide; [done | tauto]. Qed.

Lemma stat_file t p d :
  stat t p = Some (File d) -> p <> [] /\ p <> ["/"] /\ t !! p = Some (File d).
Proof. unfold stat. case_decide; [done | tauto]. Qed.

Lemma write_file_ok p d w w' :
  write_file p d w = (Ok tt, w') ->
  w' = set_fs (insert p (File d)) w /\ stat (fs w') p = Some (File d).
Proof.
  unfold write_file. intros H.
  assert (Hp : p <> [] /\ p <> ["/"]).
  { unfold stat in H. case_decide; [discriminate | tauto]. }
  assert (w' = set_fs (insert p (File d)) w) as ->.
  { repeat case_match; congruence. }
  split; [done|]. simpl. rewrite stat_lookup by tauto. apply lookup_insert_eq.
Qed.

Lemma bind_lift {A B} (a : A) (k : A -> M B) w : bind (lift (Ok a)) k w = k a w.
Proof. done. Qed.


Lemma bind_path_exists {B} p (k : bool -> M B) w :
  bind (path_exists p) k w = k (bool_decide (is_Some (stat (fs w) p))) w.
Proof. done. Qed.

Lemma insert_settings_fs id name ts info w r w' :
  insert_settings id name ts info w = (r, w') -> fs w' = fs w.
Proof.
  unfold insert_settings, bind, lift.
  repeat (case_match; simplify_eq; try done); by intros [= <- <-].
Qed.

Lemma try_insert_settings_fs id name ts info w r w' :
  try_except (insert_settings id name ts info) (fun _ => true) (ret tt) w = (r, w') ->
  fs w' = fs w.
Proof.
  unfold try_except, ret.
  destruct (insert_settings id name ts info w) as [[[]|e] w1] eqn:E;
    intros [= <- <-]; eauto using insert_settings_fs.
Qed.

(** What a successful [save_analysis] went through. *)
Lemma save_analysis_ok self result video_name info w id w' :
  save_analysis self result video_name info w = (Ok id, w') ->
  exists saved timestamp counts history w1 w2,
    let folder := path_div (history_folder self) id in
    id = entropy w (drawn w) /\
    _save_artifacts result folder w1 = (Ok saved, w2) /\
    _count_anomaly_types result = Ok counts /\
    stored self w' =
      Some (JList (history ++
              [history_entry id timestamp video_name folder result counts saved info])).
Proof.
  intros H. unfold save_analysis in H.
  apply bind_ok in H as (id0 & w1 & Hid & H). cbv zeta in H.
  apply bind_ok in H as ([] & w2 & Hmk & H).
  apply bind_ok in H as (saved & w3 & Hsave & H).
  apply bind_ok in H as (ts & w4 & Hnow & H).
  apply bind_ok in H as (counts & w5 & Hcount & H).
  apply bind_ok in H as (history & w6 & Hload & H).
  apply bind_ok in H as (history' & w7 & Happ & H).
  apply bind_ok in H as ([] & w8 & Hdump & H).
  apply bind_ok in H as ([] & w9 & Hdb & H).
  apply ret_ok in H as [-> ->].
  apply lift_ok in Hcount as [Hcount ->].
  apply lift_ok in Happ as [Happ ->].
  unfold py_append in Happ. destruct history as [| | | | |l|]; try discriminate.
  injection Happ as <-.
  apply write_file_ok in Hdump as [_ Hst].
  apply try_insert_settings_fs in Hdb.
  assert (id0 = entropy w (drawn w)) as Hid' by (unfold uuid4 in Hid; congruence).
  exists saved, ts, counts, l, w2, w3. cbv zeta.
  split; [done|]. split; [done|]. split; [done|].
  unfold stored. by rewrite Hdb, Hst.
Qed.

(** ** Derived counts (C6) *)

Lemma kind_count_cons kind loc locs :
  kind_count kind (loc :: locs)
  = (if decide (event_kind loc = Some kind) then 1 else 0) + kind_count kind locs.
Proof.
  unfold kind_count. rewrite filter_cons.
  case_decide; [rewrite length_cons|]; lia.
Qed.

(** The loop of [_count_anomaly_types] adds, to each of the three
    counters, the number of localizations of that kind. *)
Lemma count_locs_spec locs : forall a b c counts,
  count_locs locs [("duplication", a); ("insertion", b); ("discontinuity", c)]
    = Ok counts ->
  counts = [ ("duplication", a + kind_count "duplication" locs);
             ("insertion", b + kind_count "insertion" locs);
             ("discontinuity", c + kind_count "discontinuity" locs) ].
Proof.
  induction locs as [|loc locs IH]; intros a b c counts H; simpl in H.
  - injection H as <-. unfold kind_count. simpl. by rewrite !Z.add_0_r.
  - apply res_bind_ok in H as (counts1 & Hloc & H).
    unfold count_loc in Hloc.
    apply res_bind_ok in Hloc as (event & Hev & Hloc).
    apply res_bind_ok in Hloc as (kind & Hkind & Hloc).
    assert (Hk : event_kind loc = Some kind).
    { unfold event_kind. rewrite Hev. destruct event; try discriminate.
      simpl in Hkind. congruence. }
    rewrite !kind_count_cons, Hk.
    cbn [dict_lookup dict_set] in Hloc. revert Hloc.
    destruct (String.eqb_spec "duplication" kind) as [<-|Hd];
      [|destruct (String.eqb_spec "insertion" kind) as [<-|Hi];
        [|destruct (String.eqb_spec "discontinuity" kind) as [<-|Hc]]];
      cbn [dict_lookup dict_set]; intros [= Heq]; subst counts1;
      apply IH in H; subst counts;
      repeat case_decide; simplify_eq; repeat (f_equal; try lia).
Qed.

(** The loop runs through whenever every localization is a dict whose
    event tag, if any, is a string. *)
Lemma count_locs_total locs : forall counts,
  Forall (fun loc => is_Some (event_kind loc)) locs ->
  exists counts', count_locs locs counts = Ok counts'.
Proof.
  induction locs as [|loc locs IH]; intros counts Hall; simpl; [eauto|].
  apply Forall_cons in Hall as [[kind Hk] Hall].
  unfold event_kind in Hk. unfold count_loc.
  destruct (py_get loc "event" (JStr nil_str)) as [[]|] eqn:E; try discriminate.
  simpl. destruct (dict_lookup counts _); simpl; eauto.
Qed.

(** C6, as amended: the saved record's [anomaly_types] gives, for each of
    duplication, insertion and discontinuity, the number of localizations
    whose event tag equals that kind once every occurrence of the text
    [anomaly_] is deleted from it (tags of other kinds are not counted),
    and [localizations_count] is the length of the localizations. *)
Theorem save_analysis_derived_counts self result video_name info w id w' :
  save_analysis self result video_name info w = (Ok id, w') ->
  exists history entry,
    stored self w' = Some (JList (history ++ [entry])) /\
    py_item entry "id" = Ok (JStr id) /\
    py_item entry "anomaly_types"
      = Ok (JDict
              [ ("duplication", JInt (kind_count "duplication" (localizations result)));
                ("insertion", JInt (kind_count "insertion" (localizations result)));
                ("discontinuity", JInt (kind_count "discontinuity" (localizations result))) ]) /\
    py_item entry "localizations_count"
      = Ok (JInt (Z.of_nat (length (localizations result)))).
Proof.
  intros H. apply save_analysis_ok in H
    as (saved & ts & counts & history & w1 & w2 & Hid & _ & Hcount & Hst).
  apply count_locs_spec in Hcount. subst counts.
  eexists _, _. split; [exact Hst|]. repeat split.
Qed.

(** The example of the specification: one localization tagged
    [anomaly_duplication]. *)
Lemma save_analysis_derived_counts_example :
  exists history entry,
    stored default_manager
      (snd (save_analysis default_manager example_result "video.mp4" JNull fresh_world))
      = Some (JList (history ++ [entry])) /\
    py_item entry "id" = Ok (JStr "0f8fad5b-d9cb-469f-a165-708677289500") /\
    py_item entry "anomaly_types"
      = Ok (JDict [ ("duplication", JInt 1); ("insertion", JInt 0);
                    ("discontinuity", JInt 0) ]) /\
    py_item entry "localizations_count" = Ok (JInt 1).
Proof.
  apply (save_analysis_derived_counts default_manager example_result
           "video.mp4" JNull fresh_world).
  vm_compute. reflexivity.
Defined.

(** C6 as worded fails: a tag that holds [anomaly_] elsewhere than at its
    head is counted by the code, and is not a known kind once only a
    leading [anomaly_] is removed. *)
Lemma count_anomaly_types_not_prefix :
  _count_anomaly_types (bare_result [JDict [("event", JStr "dupanomaly_lication")]])
    = Ok [("duplication", 1); ("insertion", 0); ("discontinuity", 0)]
  /\ prefix_count "duplication" [JDict [("event", JStr "dupanomaly_lication")]] = 0.
Proof. split; reflexivity. Qed.

(** ** The artifact store (C2) *)

Lemma grows_refl t : grows t t.
Proof. by intros p. Qed.

Lemma grows_trans t1 t2 t3 : grows t1 t2 -> grows t2 t3 -> grows t1 t3.
Proof. intros H1 H2 p Hp. auto. Qed.

Lemma grows_insert t p n : grows t (<[p := n]> t).
Proof.
  intros q. unfold stat. case_decide; [done|].
  destruct (decide (p = q)) as [->|Hne].
  - by rewrite lookup_insert_eq.
  - by rewrite lookup_insert_ne.
Qed.



Lemma os_path_exists_run s w :
  os_path_exists s w = (Ok (bool_decide (resolvable (fs w) s)), w).
Proof.
  unfold os_path_exists, resolvable, nil_str.
  destruct (String.eqb_spec s EmptyString) as [->|Hs].
  - rewrite bool_decide_eq_false_2 by tauto. done.
  - unfold path_exists.
    by rewrite (bool_decide_ext _ (s <> EmptyString /\ is_Some (stat (fs w) (Path s))))
      by tauto.
Qed.

Lemma shutil_copy_ok src dst w w' :
  shutil_copy src dst w = (Ok tt, w') ->
  (exists target d, w' = set_fs (insert target (File d)) w)
  /\ is_Some (stat (fs w') dst).
Proof.
  unfold shutil_copy. intros H.
  apply bind_ok in H as (isd & w1 & Hd & H).
  unfold path_is_dir in Hd. injection Hd as <- <-.
  case_decide; [discriminate|].
  apply bind_ok in H as (d & w2 & Hr & H).
  assert (w2 = w) as ->.
  { unfold read_file in Hr. repeat case_match; congruence. }
  apply write_file_ok in H as [-> Hst]. split; [eauto|].
  destruct (stat (fs w) dst) as [[]|] eqn:E; try by eauto.
  apply (grows_insert (fs w)). by rewrite E.
Qed.

Lemma copy_into_ok folder source name key saved w saved' w' :
  copy_into folder source name key saved w = (Ok saved', w') ->
  saved' = dict_set saved key (JStr (path_str (path_div folder name)))
  /\ grows (fs w) (fs w')
  /\ is_Some (stat (fs w') (path_div folder name)).
Proof.
  unfold copy_into. intros H.
  apply bind_ok in H as ([] & w1 & Hc & H).
  apply ret_ok in H as [-> ->].
  apply shutil_copy_ok in Hc as [(target & d & ->) Hst].
  split; [done|]. split; [apply grows_insert | done].
Qed.


Lemma save_plot_ok folder name v saved w saved' w' :
  save_plot folder (name, v) saved w = (Ok saved', w') ->
  grows (fs w) (fs w') /\
  (saved' = saved \/
   exists s, v = JStr s /\ resolvable (fs w) s /\
     saved' = dict_set saved name
                (JStr (path_str (path_div folder (path_name (Path s)))))).
Proof.
  unfold save_plot. simpl. intros H.
  destruct v as [| | | |s| |];
    try (apply ret_ok in H as [-> ->]; split; [apply grows_refl | by left]).
  apply bind_ok in H as (present & w1 & He & H).
  rewrite os_path_exists_run in He. injection He as <- <-.
  case_bool_decide as Hr.
  - apply copy_into_ok in H as (-> & Hg & _). split; [done|]. right. eauto.
  - apply ret_ok in H as [-> ->]. split; [apply grows_refl | by left].
Qed.

Lemma save_frame_ok folder i loc saved w saved' w' :
  save_frame folder (i, loc) saved w = (Ok saved', w') ->
  grows (fs w) (fs w') /\
  ((saved' = saved /\ forall s, image_of loc = Some s -> ~ resolvable (fs w) s) \/
   exists s, image_of loc = Some s /\ resolvable (fs w) s /\
     is_Some (stat (fs w') (frame_target folder i)) /\
     saved' = dict_set saved (frame_key i) (JStr (path_str (frame_target folder i)))).
Proof.
  unfold save_frame. simpl. intros H.
  apply bind_ok in H as (image & w1 & Hi & H).
  apply lift_ok in Hi as [Hi ->].
  unfold image_of. rewrite Hi.
  destruct (truthy image) eqn:Ht.
  - destruct image as [| | | |s| |]; try discriminate.
    apply bind_ok in H as (present & w1 & He & H).
    rewrite os_path_exists_run in He. injection He as <- <-.
    case_bool_decide as Hr.
    + apply copy_into_ok in H as (-> & Hg & Hst). split; [done|]. right. eauto.
    + apply ret_ok in H as [-> ->]. split; [apply grows_refl|]. left.
      split; [done|]. by intros ? [= <-].
  - apply ret_ok in H as [-> ->]. split; [apply grows_refl|]. left.
    split; [done|]. intros s Hs [Hne _].
    destruct image; simplify_eq. simpl in Ht.
    apply negb_false_iff, String.eqb_eq in Ht. done.
Qed.

Lemma save_report_ok folder key report saved w saved' w' :
  save_report folder key report saved w = (Ok saved', w') ->
  grows (fs w) (fs w') /\
  (saved' = saved \/
   exists s, report = Some s /\ resolvable (fs w) s /\
     saved' = dict_set saved key
                (JStr (path_str (path_div folder (path_name (Path s)))))).
Proof.
  unfold save_report. intros H.
  destruct report as [s|];
    [|apply ret_ok in H as [-> ->]; split; [apply grows_refl | by left]].
  destruct (truthy (JStr s));
    [|apply ret_ok in H as [-> ->]; split; [apply grows_refl | by left]].
  apply bind_ok in H as (present & w1 & He & H).
  rewrite os_path_exists_run in He. injection He as <- <-.
  case_bool_decide as Hr.
  - apply copy_into_ok in H as (-> & Hg & _). split; [done|]. right. eauto.
  - apply ret_ok in H as [-> ->]. split; [apply grows_refl | by left].
Qed.








(** ** The record store: loading and deleting (C8, C3) *)

Lemma stored_stat self w v :
  stored self w = Some v ->
  stat (fs w) (history_file self) = Some (File (JsonText v)).
Proof. unfold stored. repeat case_match; congruence. Qed.

(** A readable history file is returned as it is, and nothing is written. *)
Lemma load_history_stored self w v :
  stored self w = Some v -> load_history self w = (Ok v, w).
Proof.
  intros H. apply stored_stat in H.
  unfold load_history, try_except, bind, read_file. by rewrite H.
Qed.




Lemma get_analysis_stored self analysis_id w l :
  stored self w = Some (JList l) ->
  get_analysis self analysis_id w = (find_by_id analysis_id l, w).
Proof.
  intros H. unfold get_analysis.
  rewrite (bind_step _ _ _ _ _ (load_history_stored _ _ _ H)).
  unfold bind, lift. simpl. by destruct (find_by_id analysis_id l).
Qed.




Lemma find_by_id_found analysis_id l entry :
  find_by_id analysis_id l = Ok (Some entry) ->
  In entry l /\ has_id analysis_id entry = true /\ truthy entry = true.
Proof.
  induction l as [|e l IH]; simpl; [discriminate|].
  intros H. apply res_bind_ok in H as (v & Hv & H).
  destruct (py_eq_str v analysis_id) eqn:E.
  - injection H as <-. split; [by left|]. split.
    + unfold has_id. by rewrite Hv.
    + unfold py_item in Hv. destruct e as [| | | | | |d]; try discriminate.
      by destruct d.
  - apply IH in H as (Hin & Hid & Ht). auto.
Qed.


Lemma find_by_id_without analysis_id l :
  have_ids l -> find_by_id analysis_id (records_without analysis_id l) = Ok None.
Proof.
  induction 1 as [|entry l [v Hv] _ IH]; simpl; [done|].
  unfold has_id. rewrite Hv.
  destruct (py_eq_str v analysis_id) eqn:E; simpl; [done|].
  by rewrite Hv; simpl; rewrite E.
Qed.

Lemma without_lookup_outside p t k :
  ~ inside p k -> without p t !! k = t !! k.
Proof.
  intros Hk. unfold without. destruct (t !! k) as [n|] eqn:E.
  - by apply map_lookup_filter_Some.
  - apply map_lookup_filter_None. left. done.
Qed.





(** ** Deleting everything (C7) *)








(** ** Saving and reading back (C1) *)

Lemma py_eq_str_true v s : py_eq_str v s = true -> v = JStr s.
Proof.
  destruct v; simpl; try discriminate. intros H. by apply String.eqb_eq in H as ->.
Qed.

Lemma find_by_id_last analysis_id history entry :
  unique_ids (history ++ [entry]) ->
  py_item entry "id" = Ok (JStr analysis_id) ->
  find_by_id analysis_id (history ++ [entry]) = Ok (Some entry).
Proof.
  intros [Hids Hnodup] Hid. rewrite map_app in Hnodup. simpl in Hnodup.
  apply NoDup_app in Hnodup as (_ & Hfresh & _).
  apply Forall_app in Hids as [Hids _].
  induction history as [|e history IH]; simpl.
  - rewrite Hid. simpl. by rewrite String.eqb_refl.
  - apply Forall_cons in Hids as [[v Hv] Hids]. rewrite Hv. simpl.
    destruct (py_eq_str v analysis_id) eqn:E.
    + apply py_eq_str_true in E as ->. exfalso.
      apply (Hfresh (Ok (JStr analysis_id))).
      * simpl. rewrite Hv. by left.
      * rewrite Hid. by left.
    + apply IH; [done|]. intros x Hx. apply Hfresh. by right.
Qed.

(** C1: after [save_analysis] has returned an identifier, and the
    identifiers of the history file being distinct, [get_analysis] on that
    identifier returns the record just saved, whose [video_name],
    [preservation_hash] and [localizations] are those given. *)
Theorem save_then_get self result video_name info w id w' :
  save_analysis self result video_name info w = (Ok id, w') ->
  unique_ids (records self w') ->
  exists entry,
    get_analysis self id w' = (Ok (Some entry), w')
    /\ py_item entry "video_name" = Ok (JStr video_name)
    /\ py_item entry "preservation_hash" = Ok (preservation_hash result)
    /\ py_item entry "localizations" = Ok (JList (localizations result)).
Proof.
  intros Hsave Huniq.
  apply save_analysis_ok in Hsave
    as (saved & ts & counts & history & w1 & w2 & Hid & _ & _ & Hst).
  unfold records in Huniq. rewrite Hst in Huniq.
  eexists. split.
  - rewrite (get_analysis_stored _ _ _ _ Hst).
    by rewrite (find_by_id_last _ _ _ Huniq eq_refl).
  - repeat split.
Qed.

Lemma save_then_get_witness :
  exists entry,
    get_analysis default_manager "0f8fad5b-d9cb-469f-a165-708677289500"
      (snd (save_analysis default_manager example_result "video.mp4" JNull
              (one_record_world ∅)))
    = (Ok (Some entry),
       snd (save_analysis default_manager example_result "video.mp4" JNull
              (one_record_world ∅)))
    /\ py_item entry "video_name" = Ok (JStr "video.mp4")
    /\ py_item entry "preservation_hash" = Ok (preservation_hash example_result)
    /\ py_item entry "localizations" = Ok (JList (localizations example_result)).
Proof.
  apply (save_then_get default_manager example_result "video.mp4" JNull
           (one_record_world ∅)).
  - vm_compute. reflexivity.
  - split.
    + vm_compute. repeat constructor; eauto.
    + vm_compute. apply NoDup_cons_2; [|apply NoDup_singleton].
      intros H. apply list_elem_of_singleton in H. discriminate H.
Defined.

(** ** Rendering and export (C9, C5, C10) *)

Section ReportProperties.

Variable float_repr : float -> string.
Variable str_repr : string -> string.
Variable float_fmt2 : float -> string.
Variable int_fmt2 : Z -> res string.
Variable strftime_iso : string -> option string.
Variable str_title : string -> string.

Local Abbreviation render := (_generate_html_report float_repr str_repr float_fmt2 int_fmt2
                      strftime_iso str_title).
Local Abbreviation export := (export_analysis float_repr str_repr float_fmt2 int_fmt2
                      strftime_iso str_title).

(** C9: what [_generate_html_report] returns for a record, text or
    exception, is the same in every world (whatever the disk, the clock
    and the entropy), and rendering leaves the world as it was. *)
Theorem generate_html_report_deterministic (entry : json) :
  exists r, forall w, render entry w = (r, w).
Proof.
  unfold _generate_html_report.
  destruct (report_lines float_repr str_repr float_fmt2 int_fmt2 strftime_iso
              str_title entry) as [lines|e] eqn:E.
  - exists (Ok (String.concat newline lines)). by intros w.
  - exists (Raise e). by intros w.
Qed.

(** The archive of a record whose report renders: the JSON entry, the
    HTML entry, and one entry per file of the artifact directory. *)
Lemma export_analysis_rendered self analysis_id w l entry f html :
  stored self w = Some (JList l) ->
  find_by_id analysis_id l = Ok (Some entry) ->
  render entry w = (Ok html, w) ->
  py_get entry "artifacts_folder" (JStr nil_str) = Ok (JStr f) ->
  exists artifacts,
    glob_files (Path f) w = (Ok artifacts, w)
    /\ export self analysis_id w
       = (Ok (Some ([ ("analysis_report.json", ZJson entry);
                      ("analysis_report.html", ZText html) ]
                    ++ map archive_member
                         (if bool_decide (is_Some (stat (fs w) (Path f)))
                          then artifacts else []))%list), w).
Proof.
  intros Hst Hfind Hrender Hfolder.
  pose proof (find_by_id_found _ _ _ Hfind) as (_ & _ & Htruthy).
  assert (Hglob : exists artifacts, glob_files (Path f) w = (Ok artifacts, w)).
  { unfold glob_files. repeat case_match; eauto. }
  destruct Hglob as [artifacts Hglob]. exists artifacts. split; [done|].
  unfold export_analysis.
  erewrite bind_step by (rewrite (get_analysis_stored _ _ _ _ Hst), Hfind; done).
  cbv beta iota. rewrite Htruthy. cbn [negb]. cbv iota.
  rewrite (bind_step _ _ _ _ _ Hrender).
  rewrite Hfolder, bind_lift.
  change (py_Path (JStr f)) with (Ok (Path f)). rewrite bind_lift.
  rewrite bind_path_exists.
  case_bool_decide.
  - by rewrite (bind_step _ _ _ _ _ Hglob).
  - done.
Qed.

(** No record under the identifier: the result is absent. *)
Lemma export_analysis_absent self analysis_id w l :
  stored self w = Some (JList l) ->
  find_by_id analysis_id l = Ok None ->
  export self analysis_id w = (Ok None, w).
Proof.
  intros Hst Hfind. unfold export_analysis.
  by erewrite bind_step by (rewrite (get_analysis_stored _ _ _ _ Hst), Hfind; done).
Qed.

(** C5: the defect.  [save_analysis] stores [null] under
    [forensic_evidence_matrix] for a result without that attribute; the
    renderer then calls [.get] on [None], and [export_analysis] raises
    AttributeError for a record that is stored. *)
Theorem export_analysis_null_matrix :
  (exists entry,
     fst (get_analysis default_manager saved_id saved_world) = Ok (Some entry)
     /\ py_item entry "forensic_evidence_matrix" = Ok JNull)
  /\ export default_manager saved_id saved_world = (Raise AttributeError, saved_world).
Proof.
  split.
  - eexists. split; vm_compute; reflexivity.
  - vm_compute. reflexivity.
Qed.

(** C10: the same defect when the artifact folder of the record is no
    longer on disk: no archive, AttributeError. *)
Theorem export_analysis_missing_folder_null_matrix :
  stat (fs saved_world_without_folder) ["analysis_artifacts"; saved_id] = None
  /\ (exists entry,
       fst (get_analysis default_manager saved_id saved_world_without_folder)
       = Ok (Some entry)
       /\ py_item entry "artifacts_folder" = Ok (JStr "analysis_artifacts/0f8fad5b-d9cb-469f-a165-708677289500"))
  /\ export default_manager saved_id saved_world_without_folder
     = (Raise AttributeError, saved_world_without_folder).
Proof.
  split; [vm_compute; reflexivity|]. split.
  - eexists. split; vm_compute; reflexivity.
  - vm_compute. reflexivity.
Qed.

End ReportProperties.

(** ** [save_analysis] runs through (C4) *)

Lemma append_cons x (a b : string) : String x a +:+ b = String x (a +:+ b).
Proof. done. Qed.

Lemma append_assoc (a b c : string) : (a +:+ b) +:+ c = a +:+ (b +:+ c).
Proof. induction a as [|x a IH]; [done|]. by rewrite !append_cons, IH. Qed.

Lemma append_nil_r (a : string) : a +:+ EmptyString = a.
Proof. induction a as [|x a IH]; [done|]. by rewrite append_cons, IH. Qed.

Lemma slash_free_app a b :
  slash_free a = true -> slash_free b = true -> slash_free (a +:+ b) = true.
Proof.
  induction a as [|x a IH]; [done|]. rewrite append_cons. simpl.
  intros [Hx Ha]%andb_true_iff Hb. rewrite Hx. simpl. auto.
Qed.

Lemma split_slash_free s : forall cur,
  slash_free cur = true -> Forall (fun c => slash_free c = true) (split_slash cur s).
Proof.
  induction s as [|x s IH]; intros cur Hcur; simpl.
  - by constructor.
  - destruct (Ascii.eqb x slash) eqn:E.
    + constructor; [done|]. by apply IH.
    + apply IH. apply slash_free_app; [done|]. simpl. by rewrite E.
Qed.

Lemma split_slash_single s : forall cur,
  slash_free s = true -> split_slash cur s = [cur +:+ s].
Proof.
  induction s as [|x s IH]; intros cur Hs; simpl.
  - by rewrite append_nil_r.
  - simpl in Hs. apply andb_true_iff in Hs as [Hx Hs].
    apply negb_true_iff in Hx. rewrite Hx.
    rewrite IH by done. by rewrite append_assoc.
Qed.

(** A proper part without a slash is a file name. *)
Lemma part_file_name c :
  slash_free c = true -> proper_part c = true -> file_name c.
Proof.
  intros Hc Hp. split.
  - destruct c as [|x c]; [done|]. simpl in *.
    apply andb_true_iff in Hc as [Hx _]. by apply negb_true_iff in Hx.
  - unfold Path.
    assert (is_absolute c = false) as ->.
    { destruct c as [|x c]; [done|]. simpl in *.
      apply andb_true_iff in Hc as [Hx _]. by apply negb_true_iff in Hx. }
    rewrite split_slash_single by done.
    change (nil_str +:+ c) with c. simpl. by rewrite Hp.
Qed.

(** The name of a path that is neither empty nor the anchor. *)
Lemma Path_name_file s :
  Path s <> [] -> Path s <> ["/"] -> file_name (path_name (Path s)).
Proof.
  intros H1 H2. unfold path_name.
  set (parts := List.filter proper_part (split_slash nil_str s)).
  assert (Hparts : Forall (fun c => slash_free c = true /\ proper_part c = true) parts).
  { apply List.Forall_forall. intros c Hc. apply List.filter_In in Hc as [Hc Hp].
    split; [|done].
    pose proof (split_slash_free s nil_str eq_refl) as Hall.
    rewrite List.Forall_forall in Hall. by apply Hall. }
  assert (Hlast : List.last (Path s) nil_str = List.last parts nil_str /\ parts <> []).
  { unfold Path in *. fold parts in H1, H2 |- *.
    destruct (is_absolute s); [|done].
    destruct parts as [|c parts']; [done|]. done. }
  destruct Hlast as [-> Hne].
  assert (Hin : In (List.last parts nil_str) parts).
  { destruct (exists_last Hne) as (front & c & ->).
    rewrite List.last_last. apply in_or_app. right. by left. }
  rewrite List.Forall_forall in Hparts. apply Hparts in Hin as [Hfree Hproper].
  assert (String.eqb (List.last parts nil_str) "/" = false) as ->.
  { apply String.eqb_neq. intros E. rewrite E in Hfree. done. }
  by apply part_file_name.
Qed.







Lemma frame_file_name i :
  (i < 3)%nat -> file_name ("sample_anomaly_frame_" +:+ pretty i +:+ ".jpg").
Proof.
  intros Hi. destruct i as [|[|[|i]]]; [| | |lia]; split; vm_compute; reflexivity.
Qed.








(** * Properties of whole runs *)

(** ** Relations kept by every run *)

Section Preserves.

Context (R : world -> world -> Prop).
Hypothesis R_refl : forall w, R w w.
Hypothesis R_trans : forall w1 w2 w3, R w1 w2 -> R w2 w3 -> R w1 w3.

Lemma preserves_ret {A} (a : A) : preserves R (ret a).
Proof. intros w r w' [= <- <-]. apply R_refl. Qed.

Lemma preserves_raise {A} (e : exn) : preserves R (@raise A e).
Proof. intros w r w' [= <- <-]. apply R_refl. Qed.

Lemma preserves_lift {A} (x : res A) : preserves R (lift x).
Proof. intros w r w' [= <- <-]. apply R_refl. Qed.

Lemma preserves_bind {A B} (m : M A) (k : A -> M B) :
  preserves R m -> (forall a, preserves R (k a)) -> preserves R (bind m k).
Proof.
  intros Hm Hk w r w'. unfold bind.
  destruct (m w) as [[a|e] w1] eqn:E.
  - intros H. eapply R_trans; [eapply Hm, E | eapply Hk, H].
  - intros [= <- <-]. eapply Hm, E.
Qed.

Lemma preserves_try_except {A} (m h : M A) handled :
  preserves R m -> preserves R h -> preserves R (try_except m handled h).
Proof.
  intros Hm Hh w r w'. unfold try_except.
  destruct (m w) as [[a|e] w1] eqn:E.
  - intros [= <- <-]. eapply Hm, E.
  - destruct (handled e).
    + intros H. eapply R_trans; [eapply Hm, E | eapply Hh, H].
    + intros [= <- <-]. eapply Hm, E.
Qed.

Lemma preserves_for_each {A S} (body : A -> S -> M S) (l : list A) :
  (forall x acc, In x l -> preserves R (body x acc)) ->
  forall acc, preserves R (for_each l body acc).
Proof.
  induction l as [|x l IH]; intros Hbody acc; simpl.
  - apply preserves_ret.
  - apply preserves_bind; [apply Hbody; by left|].
    intros acc'. apply IH. intros y a Hy. apply Hbody. by right.
Qed.

(** The calls that only look at the world. *)
Lemma preserves_path_exists p : preserves R (path_exists p).
Proof. intros w r w' [= <- <-]. apply R_refl. Qed.

Lemma preserves_path_is_dir p : preserves R (path_is_dir p).
Proof. intros w r w' [= <- <-]. apply R_refl. Qed.

Lemma preserves_os_path_exists s : preserves R (os_path_exists s).
Proof.
  unfold os_path_exists. destruct (String.eqb s nil_str);
    [apply preserves_ret | apply preserves_path_exists].
Qed.

Lemma preserves_read_file p : preserves R (read_file p).
Proof.
  intros w r w'. unfold read_file.
  repeat case_match; intros [= <- <-]; apply R_refl.
Qed.

Lemma preserves_json_load d : preserves R (json_load d).
Proof. destruct d; [apply preserves_raise | apply preserves_ret]. Qed.

Lemma preserves_glob_files p : preserves R (glob_files p).
Proof.
  intros w r w'. unfold glob_files.
  repeat case_match; intros [= <- <-]; apply R_refl.
Qed.

End Preserves.

(** ** What the methods that do not delete may write *)

Section Writes.

Context (R : world -> world -> Prop) (allowed : path -> Prop).
Hypothesis R_refl : forall w, R w w.
Hypothesis R_trans : forall w1 w2 w3, R w1 w2 -> R w2 w3 -> R w1 w3.
Hypothesis R_fs : forall w w', fs w' = fs w -> R w w'.
Hypothesis R_insert : forall w p n, allowed p -> R w (set_fs (insert p n) w).

Lemma preserves_uuid4 : preserves R uuid4.
Proof. intros w r w' [= <- <-]. by apply R_fs. Qed.

Lemma preserves_now : preserves R now_isoformat.
Proof. intros w r w' [= <- <-]. by apply R_fs. Qed.

Lemma preserves_mkdir p : allowed p -> preserves R (mkdir_exist_ok p).
Proof.
  intros Hp w r w'. unfold mkdir_exist_ok.
  repeat case_match; intros [= <- <-]; auto.
Qed.

Lemma preserves_write_file p d : allowed p -> preserves R (write_file p d).
Proof.
  intros Hp w r w'. unfold write_file.
  repeat case_match; intros [= <- <-]; auto.
Qed.

(** [shutil.copy] writes only when the source is a regular file, and
    then at the destination or, the destination being a directory, just
    below it. *)
Lemma preserves_shutil_copy src dst :
  (src <> [] -> src <> ["/"] ->
   allowed dst /\ allowed (dst ++ Path (path_name src))%list) ->
  preserves R (shutil_copy src dst).
Proof.
  intros Hallowed w r w'. unfold shutil_copy, bind, path_is_dir.
  set (target := if match stat (fs w) dst with Some Dir => true | _ => false end
                 then (dst ++ Path (path_name src))%list else dst).
  case_decide; [intros [= <- <-]; auto|].
  unfold read_file. destruct (stat (fs w) src) as [[d|]|] eqn:Hsrc;
    try (intros [= <- <-]; auto).
  apply stat_file in Hsrc as (H1 & H2 & _).
  destruct (Hallowed H1 H2) as [Hd Ht].
  apply preserves_write_file. unfold target. by case_match.
Qed.

Lemma preserves_insert_settings id name ts info :
  preserves R (insert_settings id name ts info).
Proof. intros w r w' H. apply R_fs. by eapply insert_settings_fs. Qed.

Lemma preserves_load_history self :
  allowed (history_file self) -> preserves R (load_history self).
Proof.
  intros Hhf. unfold load_history, json_dump_to.
  apply preserves_try_except; [done | |].
  - apply preserves_bind; [done | by apply preserves_read_file |].
    intros d. by apply preserves_json_load.
  - apply preserves_bind; [done | by apply preserves_write_file |].
    intros _. by apply preserves_ret.
Qed.

Lemma preserves_get_analysis self analysis_id :
  allowed (history_file self) -> preserves R (get_analysis self analysis_id).
Proof.
  intros Hhf. unfold get_analysis.
  apply preserves_bind; [done | by apply preserves_load_history |].
  intros history. apply preserves_bind; [done | by apply preserves_lift |].
  intros l. by apply preserves_lift.
Qed.

End Writes.

Lemma inside_app folder k x : inside folder k -> k <> [] -> inside folder (k ++ x).
Proof.
  intros [Hpre Hrel] Hk. split.
  - by apply prefix_app_r.
  - intros Hf. specialize (Hrel Hf). by destruct k.
Qed.

Lemma inside_child folder name : file_name name -> inside folder (folder ++ [name]).
Proof.
  intros [Habs _]. split; [by exists [name]|]. intros ->. simpl.
  apply negb_true_iff, String.eqb_neq. by intros ->.
Qed.

Lemma path_div_file_name folder name :
  file_name name -> path_div folder name = (folder ++ [name])%list.
Proof. intros [Habs Hname]. unfold path_div. by rewrite Habs, Hname. Qed.

Lemma enumerate_from_In {A} (l : list A) : forall n i x,
  In (i, x) (enumerate_from n l) -> (n <= i < n + length l)%nat.
Proof.
  induction l as [|y l IH]; intros n i x; simpl; [done|].
  intros [[= <- <-]|H]; [lia|]. apply IH in H. lia.
Qed.

(** ** What [_save_artifacts] and [save_analysis] may write *)

Section SaveWrites.

Context (R : world -> world -> Prop) (allowed : path -> Prop) (folder : path).
Hypothesis R_refl : forall w, R w w.
Hypothesis R_trans : forall w1 w2 w3, R w1 w2 -> R w2 w3 -> R w1 w3.
Hypothesis R_fs : forall w w', fs w' = fs w -> R w w'.
Hypothesis R_insert : forall w p n, allowed p -> R w (set_fs (insert p n) w).
Hypothesis allowed_inside : forall k, inside folder k -> allowed k.

(** A copy into the folder under a file name writes inside the folder. *)
Lemma preserves_copy_into source name key saved :
  (Path source <> [] -> Path source <> ["/"] -> file_name name) ->
  preserves R (copy_into folder source name key saved).
Proof.
  intros Hname. unfold copy_into.
  apply preserves_bind; [done | | intros _; by apply preserves_ret].
  apply (preserves_shutil_copy R allowed); try done.
  intros H1 H2. specialize (Hname H1 H2).
  rewrite (path_div_file_name _ _ Hname).
  pose proof (inside_child folder name Hname) as Hin.
  split; apply allowed_inside; [done|].
  apply inside_app; [done|]. by destruct folder.
Qed.

Lemma preserves_save_plot plot saved : preserves R (save_plot folder plot saved).
Proof.
  unfold save_plot. destruct (snd plot); try by apply preserves_ret.
  apply preserves_bind; [done | by apply preserves_os_path_exists |].
  intros [|]; [|by apply preserves_ret].
  apply preserves_copy_into. apply Path_name_file.
Qed.

Lemma preserves_save_report key report saved :
  preserves R (save_report folder key report saved).
Proof.
  unfold save_report. destruct report as [s|]; [|by apply preserves_ret].
  destruct (truthy (JStr s)); [|by apply preserves_ret].
  apply preserves_bind; [done | by apply preserves_os_path_exists |].
  intros [|]; [|by apply preserves_ret].
  apply preserves_copy_into. apply Path_name_file.
Qed.

Lemma preserves_save_frame i loc saved :
  (i < 3)%nat -> preserves R (save_frame folder (i, loc) saved).
Proof.
  intros Hi. unfold save_frame. simpl fst. simpl snd.
  apply preserves_bind; [done | by apply preserves_lift |].
  intros image. destruct (truthy image); [|by apply preserves_ret].
  destruct image; try by apply preserves_raise.
  apply preserves_bind; [done | by apply preserves_os_path_exists |].
  intros [|]; [|by apply preserves_ret].
  apply preserves_copy_into. intros _ _. by apply frame_file_name.
Qed.

Lemma preserves_save_artifacts result : preserves R (_save_artifacts result folder).
Proof.
  unfold _save_artifacts.
  apply preserves_bind; [done | |].
  { apply preserves_for_each; [done..|]. intros plot acc _.
    apply preserves_save_plot. }
  intros saved1. apply preserves_bind; [done | |].
  { apply preserves_for_each; [done..|]. intros [i loc] acc Hin.
    apply preserves_save_frame. apply enumerate_from_In in Hin.
    rewrite length_take in Hin. lia. }
  intros saved2. apply preserves_bind; [done | apply preserves_save_report |].
  intros saved3. apply preserves_bind; [done | apply preserves_save_report |].
  intros saved4. apply preserves_bind; [done | apply preserves_save_report |].
  intros saved5. by apply preserves_ret.
Qed.

End SaveWrites.

Lemma inside_self p : inside p p.
Proof. split; [done|]. by intros ->. Qed.

Lemma never_removes_trans w1 w2 w3 :
  never_removes w1 w2 -> never_removes w2 w3 -> never_removes w1 w3.
Proof. apply grows_trans. Qed.

Lemma never_removes_fs w w' : fs w' = fs w -> never_removes w w'.
Proof. unfold never_removes. intros ->. apply grows_refl. Qed.

Lemma untouched_trans P w1 w2 w3 :
  untouched P w1 w2 -> untouched P w2 w3 -> untouched P w1 w3.
Proof. intros H1 H2 k Hk. by rewrite H2, H1. Qed.

Lemma untouched_fs P w w' : fs w' = fs w -> untouched P w w'.
Proof. intros H k _. by rewrite H. Qed.

Lemma untouched_insert P w p n :
  ~ P p -> untouched P w (set_fs (insert p n) w).
Proof. intros Hp k Hk. simpl. apply lookup_insert_ne. by intros <-. Qed.

(** The body of [save_analysis] once the identifier is drawn keeps every
    relation that its writes keep: it writes the history file and inside
    the artifact folder of the identifier. *)
Lemma preserves_save_analysis (R : world -> world -> Prop) (allowed : path -> Prop)
    self result video_name info :
  (forall w, R w w) ->
  (forall w1 w2 w3, R w1 w2 -> R w2 w3 -> R w1 w3) ->
  (forall w w', fs w' = fs w -> R w w') ->
  (forall w p n, allowed p -> R w (set_fs (insert p n) w)) ->
  forall w r w',
    (forall k, inside (path_div (history_folder self) (entropy w (drawn w))) k ->
               allowed k) ->
    allowed (history_file self) ->
    save_analysis self result video_name info w = (r, w') -> R w w'.
Proof.
  intros R_refl R_trans R_fs R_insert w r w' Hinside Hhf.
  unfold save_analysis. unfold bind at 1, uuid4 at 1. cbv zeta.
  set (id := entropy w (drawn w)) in *.
  set (folder := path_div (history_folder self) id) in *.
  set (w1 := World _ _ _ _ _ _ _).
  intros H. apply (R_trans w w1); [by apply R_fs|]. revert H.
  generalize w1 r w'. clear w1 r w'.
  change (preserves R
    (let* _ := mkdir_exist_ok folder in
     let* saved_artifacts := _save_artifacts result folder in
     let* timestamp := now_isoformat in
     let* counts := lift (_count_anomaly_types result) in
     let* history := load_history self in
     let* history0 :=
       lift (py_append history
               (history_entry id timestamp video_name folder result counts
                  saved_artifacts info)) in
     let* _ := json_dump_to (history_file self) history0 in
     let* _ := try_except
                 (insert_settings id video_name timestamp info)
                 (fun _ => true) (ret tt) in
     ret id)).
  apply preserves_bind; [done | |].
  { apply (preserves_mkdir R allowed); [done..|]. apply Hinside, inside_self. }
  intros _. apply preserves_bind; [done | |].
  { by apply (preserves_save_artifacts R allowed folder). }
  intros saved. apply preserves_bind; [done | by apply preserves_now |].
  intros ts. apply preserves_bind; [done | by apply preserves_lift |].
  intros counts. apply preserves_bind; [done | |].
  { by apply (preserves_load_history R allowed). }
  intros history. apply preserves_bind; [done | by apply preserves_lift |].
  intros history0. apply preserves_bind; [done | |].
  { by apply (preserves_write_file R allowed). }
  intros _. apply preserves_bind; [done | | intros _; by apply preserves_ret].
  apply preserves_try_except; [done | | by apply preserves_ret].
  by apply preserves_insert_settings.
Qed.

(** The side conditions of the two relations on worlds. *)
Ltac never_removes_side :=
  solve [ done
        | intros; apply grows_refl
        | exact never_removes_trans
        | exact never_removes_fs
        | intros; apply grows_insert ].

Ltac untouched_side :=
  solve [ done
        | apply untouched_trans
        | apply untouched_fs
        | intros; apply untouched_insert; tauto
        | intros; tauto ].

(** X1: [_save_artifacts] writes only inside the folder it is given and
    removes nothing: whether it returns or raises, every path outside the
    folder holds what it held, so the sources are copied, never moved or
    changed. *)
Theorem save_artifacts_footprint result folder w :
  never_removes w (snd (_save_artifacts result folder w))
  /\ forall k, ~ inside folder k ->
       fs (snd (_save_artifacts result folder w)) !! k = fs w !! k.
Proof.
  destruct (_save_artifacts result folder w) as [r w'] eqn:E. simpl. split.
  - revert E.
    apply (preserves_save_artifacts never_removes (fun _ => True) folder);
      never_removes_side.
  - revert E.
    apply (preserves_save_artifacts (untouched (fun k => ~ inside folder k))
             (fun p => inside folder p) folder); untouched_side.
Qed.

Lemma save_artifacts_footprint_witness :
  fs (snd (_save_artifacts studio_result ["out"] studio_world))
    !! ["plots"; "kmeans.png"]
  = fs studio_world !! ["plots"; "kmeans.png"].
Proof.
  apply (proj2 (save_artifacts_footprint studio_result ["out"] studio_world)).
  intros [[rest Hrest] _]. discriminate Hrest.
Defined.

(** X2: [save_analysis] removes nothing and changes no path other than
    the history file and the paths inside the artifact folder of the
    identifier it draws, whether it returns or raises. *)
Theorem save_analysis_footprint self result video_name info w :
  never_removes w (snd (save_analysis self result video_name info w))
  /\ forall k,
       ~ inside (path_div (history_folder self) (entropy w (drawn w))) k ->
       k <> history_file self ->
       fs (snd (save_analysis self result video_name info w)) !! k = fs w !! k.
Proof.
  destruct (save_analysis self result video_name info w) as [r w'] eqn:E. simpl.
  split.
  - revert E. apply (preserves_save_analysis never_removes (fun _ => True));
      never_removes_side.
  - assert (Hu : untouched
                   (fun k => ~ inside (path_div (history_folder self)
                                         (entropy w (drawn w))) k
                             /\ k <> history_file self) w w').
    { revert E.
      apply (preserves_save_analysis _
               (fun p => inside (path_div (history_folder self)
                                   (entropy w (drawn w))) p
                         \/ p = history_file self)); untouched_side. }
    intros k Hk Hhf. by apply Hu.
Qed.

Lemma save_analysis_footprint_witness :
  fs studio_saved !! ["plots"; "kmeans.png"] = fs studio_world !! ["plots"; "kmeans.png"].
Proof.
  apply (proj2 (save_analysis_footprint default_manager studio_result "video.mp4"
                  JNull studio_world)).
  - intros [[rest Hrest] _]. vm_compute in Hrest. discriminate Hrest.
  - discriminate.
Defined.

(** ** Loading and looking up *)

(** X3: [load_history] is stable: once it has returned a collection,
    calling it again returns the same collection and changes nothing
    (a reset, if there was one, happens once). *)
Theorem load_history_idempotent self w v w1 :
  load_history self w = (Ok v, w1) ->
  load_history self w1 = (Ok v, w1).
Proof.
  unfold load_history, try_except, bind at 1, read_file.
  destruct (stat (fs w) (history_file self)) as [[[raw|doc]|]|] eqn:Hst; simpl.
  - unfold bind, json_dump_to.
    destruct (write_file _ _ w) as [[[]|e] w2] eqn:Hw; [|discriminate].
    intros [= <- <-]. apply write_file_ok in Hw as [_ Hfile].
    apply load_history_stored. unfold stored. by rewrite Hfile.
  - intros [= <- <-]. apply load_history_stored. unfold stored. by rewrite Hst.
  - discriminate.
  - unfold bind, json_dump_to.
    destruct (write_file _ _ w) as [[[]|e] w2] eqn:Hw; [|discriminate].
    intros [= <- <-]. apply write_file_ok in Hw as [_ Hfile].
    apply load_history_stored. unfold stored. by rewrite Hfile.
Qed.

Lemma load_history_idempotent_witness :
  load_history default_manager (reset_store default_manager corrupt_world)
  = (Ok (JList []), reset_store default_manager corrupt_world).
Proof.
  apply (load_history_idempotent default_manager corrupt_world).
  vm_compute. reflexivity.
Defined.

Lemma find_by_id_split analysis_id l entry :
  find_by_id analysis_id l = Ok (Some entry) ->
  exists before after,
    l = (before ++ entry :: after)%list
    /\ py_item entry "id" = Ok (JStr analysis_id)
    /\ Forall (fun x => exists v, py_item x "id" = Ok v /\ v <> JStr analysis_id)
         before.
Proof.
  induction l as [|x l IH]; simpl; [discriminate|].
  intros H. apply res_bind_ok in H as (v & Hv & H).
  destruct (py_eq_str v analysis_id) eqn:E.
  - injection H as <-. exists [], l. split; [done|]. split; [|constructor].
    by apply py_eq_str_true in E as ->.
  - apply IH in H as (before & after & -> & Hid & Hall).
    exists (x :: before), after. split; [done|]. split; [done|].
    constructor; [|done]. exists v. split; [done|].
    intros ->. simpl in E. by rewrite String.eqb_refl in E.
Qed.

(** X4: what [get_analysis] returns from a readable history file is a
    record of that file that bears the identifier asked for, and the
    first such record: every record before it has another identifier.
    Nothing is written. *)
Theorem get_analysis_first_match self analysis_id w l entry w' :
  stored self w = Some (JList l) ->
  get_analysis self analysis_id w = (Ok (Some entry), w') ->
  w' = w
  /\ exists before after,
       l = (before ++ entry :: after)%list
       /\ py_item entry "id" = Ok (JStr analysis_id)
       /\ Forall (fun x => exists v, py_item x "id" = Ok v /\ v <> JStr analysis_id)
            before.
Proof.
  intros Hst. rewrite (get_analysis_stored _ _ _ _ Hst).
  intros [= Hfind <-]. split; [done|]. by apply find_by_id_split.
Qed.

Lemma get_analysis_first_match_witness :
  exists before after,
    [other_record; one_record; twin_record] = (before ++ one_record :: after)%list
    /\ py_item one_record "id" = Ok (JStr "run-1")
    /\ Forall (fun x => exists v, py_item x "id" = Ok v /\ v <> JStr "run-1")
         before.
Proof.
  apply (proj2 (get_analysis_first_match default_manager "run-1" twin_world
                  [other_record; one_record; twin_record] one_record twin_world
                  ltac:(vm_compute; reflexivity) ltac:(vm_compute; reflexivity))).
Defined.

(** X5: a record without an [id] makes [get_analysis] raise KeyError for
    every identifier that no record before it bears: the lookup does not
    skip it and does not return [None]. *)
Theorem get_analysis_missing_id self analysis_id w before bad after :
  stored self w = Some (JList (before ++ JDict bad :: after)) ->
  Forall (fun x => exists v, py_item x "id" = Ok v /\ py_eq_str v analysis_id = false)
    before ->
  dict_lookup bad "id" = None ->
  get_analysis self analysis_id w = (Raise KeyError, w).
Proof.
  intros Hst Hbefore Hbad. rewrite (get_analysis_stored _ _ _ _ Hst).
  f_equal. clear Hst.
  induction Hbefore as [|x before (v & Hv & Hne) _ IH]; simpl.
  - by rewrite Hbad.
  - rewrite Hv. simpl. by rewrite Hne.
Qed.

Lemma get_analysis_missing_id_witness :
  get_analysis default_manager "run-2"
    (set_fs (insert ["analysis_history.json"]
               (File (JsonText (JList [one_record;
                                       JDict [("video_name", JStr "old.mp4")];
                                       JDict [("id", JStr "run-2")]]))))
       fresh_world)
  = (Raise KeyError,
     set_fs (insert ["analysis_history.json"]
               (File (JsonText (JList [one_record;
                                       JDict [("video_name", JStr "old.mp4")];
                                       JDict [("id", JStr "run-2")]]))))
       fresh_world).
Proof.
  apply (get_analysis_missing_id default_manager "run-2" _ [one_record]
           [("video_name", JStr "old.mp4")] [JDict [("id", JStr "run-2")]]).
  - vm_compute. reflexivity.
  - repeat constructor. exists (JStr "run-1"). split; reflexivity.
  - reflexivity.
Defined.

(** ** Deleting one record *)

Lemma other_ids_inv analysis_id l l' :
  other_ids analysis_id l = Ok l' ->
  have_ids l /\ l' = records_without analysis_id l.
Proof.
  revert l'. induction l as [|entry l IH]; simpl; intros l'.
  - intros [= <-]. split; [constructor | done].
  - intros H. apply res_bind_ok in H as (v & Hv & H).
    apply res_bind_ok in H as (rest & Hrest & H). injection H as <-.
    destruct (IH _ Hrest) as [Hids ->]. split.
    + constructor; eauto.
    + unfold has_id. rewrite Hv. by destruct (py_eq_str v analysis_id).
Qed.

(** What a [delete_analysis] that returned [True] has done to a readable
    history file. *)
Lemma delete_analysis_deleted self analysis_id w w' l :
  stored self w = Some (JList l) ->
  delete_analysis self analysis_id w = (Ok true, w') ->
  have_ids l /\ stored self w' = Some (JList (records_without analysis_id l)).
Proof.
  intros Hst H. unfold delete_analysis in H.
  rewrite (bind_step _ _ _ _ _ (load_history_stored _ _ _ Hst)) in H.
  unfold bind at 1 in H. rewrite (get_analysis_stored _ _ _ _ Hst) in H.
  destruct (find_by_id analysis_id l) as [[entry|]|e]; try discriminate.
  destruct (truthy entry); simpl in H; [|discriminate].
  apply bind_ok in H as (folder & w1 & _ & H).
  apply bind_ok in H as (artifact_folder & w2 & _ & H).
  apply bind_ok in H as (present & w3 & _ & H).
  apply bind_ok in H as (is_dir & w4 & _ & H).
  apply bind_ok in H as ([] & w5 & _ & H).
  apply bind_ok in H as (l0 & w6 & Hiter & H).
  apply lift_ok in Hiter as [[= <-] ->].
  apply bind_ok in H as (updated & w7 & Hother & H).
  apply lift_ok in Hother as [Hother ->].
  apply bind_ok in H as ([] & w8 & Hdump & H).
  apply ret_ok in H as [_ ->].
  apply write_file_ok in Hdump as [_ Hfile].
  apply other_ids_inv in Hother as [Hids ->].
  split; [done|]. unfold stored. by rewrite Hfile.
Qed.

Lemma find_by_id_other analysis_id other l :
  other <> analysis_id -> have_ids l ->
  find_by_id other (records_without analysis_id l) = find_by_id other l.
Proof.
  intros Hne. induction 1 as [|entry l [v Hv] _ IH]; simpl; [done|].
  unfold has_id. rewrite Hv.
  destruct (py_eq_str v analysis_id) eqn:E; simpl.
  - apply py_eq_str_true in E as ->. simpl.
    by rewrite (proj2 (String.eqb_neq _ _)) by done.
  - rewrite Hv. simpl. by rewrite IH.
Qed.

(** X6: a [delete_analysis] that returned [True] leaves every other
    identifier as it was: [get_analysis] on another identifier gives the
    same answer after the deletion as before. *)
Theorem delete_analysis_keeps_others self analysis_id other w w' l :
  stored self w = Some (JList l) ->
  delete_analysis self analysis_id w = (Ok true, w') ->
  other <> analysis_id ->
  fst (get_analysis self other w') = fst (get_analysis self other w).
Proof.
  intros Hst Hdel Hne.
  destruct (delete_analysis_deleted _ _ _ _ _ Hst Hdel) as [Hids Hst'].
  rewrite (get_analysis_stored _ _ _ _ Hst), (get_analysis_stored _ _ _ _ Hst').
  simpl. by apply find_by_id_other.
Qed.

Lemma delete_analysis_keeps_others_witness :
  fst (get_analysis default_manager "run-2"
         (snd (delete_analysis default_manager "run-1" twin_world)))
  = fst (get_analysis default_manager "run-2" twin_world).
Proof.
  apply (delete_analysis_keeps_others default_manager "run-1" "run-2" twin_world _
           [other_record; one_record; twin_record]).
  - vm_compute. reflexivity.
  - vm_compute. reflexivity.
  - discriminate.
Defined.

(** X7: after a [delete_analysis] that returned [True], the identifier is
    gone, even if several records bore it: [get_analysis] returns [None]
    and a second [delete_analysis] returns [False], both without writing. *)
Theorem delete_analysis_twice self analysis_id w w' l :
  stored self w = Some (JList l) ->
  delete_analysis self analysis_id w = (Ok true, w') ->
  get_analysis self analysis_id w' = (Ok None, w')
  /\ delete_analysis self analysis_id w' = (Ok false, w').
Proof.
  intros Hst Hdel.
  destruct (delete_analysis_deleted _ _ _ _ _ Hst Hdel) as [Hids Hst'].
  assert (Hget : get_analysis self analysis_id w' = (Ok None, w')).
  { by rewrite (get_analysis_stored _ _ _ _ Hst'), find_by_id_without. }
  split; [done|]. unfold delete_analysis.
  rewrite (bind_step _ _ _ _ _ (load_history_stored _ _ _ Hst')).
  by rewrite (bind_step _ _ _ _ _ Hget).
Qed.

Lemma delete_analysis_twice_witness :
  get_analysis default_manager "run-1"
    (snd (delete_analysis default_manager "run-1" twin_world))
  = (Ok None, snd (delete_analysis default_manager "run-1" twin_world))
  /\ delete_analysis default_manager "run-1"
       (snd (delete_analysis default_manager "run-1" twin_world))
     = (Ok false, snd (delete_analysis default_manager "run-1" twin_world)).
Proof.
  apply (delete_analysis_twice default_manager "run-1" twin_world _
           [other_record; one_record; twin_record]).
  - vm_compute. reflexivity.
  - vm_compute. reflexivity.
Defined.

(** ** What the methods that delete may remove *)

Section Deletes.

Context (R : world -> world -> Prop) (allowed removable : path -> Prop).
Hypothesis R_refl : forall w, R w w.
Hypothesis R_trans : forall w1 w2 w3, R w1 w2 -> R w2 w3 -> R w1 w3.
Hypothesis R_fs : forall w w', fs w' = fs w -> R w w'.
Hypothesis R_insert : forall w p n, allowed p -> R w (set_fs (insert p n) w).
Hypothesis R_remove : forall w p, removable p -> R w (set_fs (without p) w).

Lemma preserves_rmtree p : removable p -> preserves R (rmtree p).
Proof.
  intros Hp w r w'. unfold rmtree.
  repeat case_match; intros [= <- <-]; auto.
Qed.

Lemma preserves_delete_all_history self :
  allowed (history_file self) -> allowed (history_folder self) ->
  removable (history_folder self) ->
  preserves R (delete_all_history self).
Proof.
  intros Hhf Hroot Hrm. unfold delete_all_history, json_dump_to.
  apply preserves_bind; [done | by apply (preserves_load_history R allowed) |].
  intros history. apply preserves_bind; [done | by apply preserves_lift |].
  intros count. apply preserves_bind; [done | by apply preserves_path_exists |].
  intros present. apply preserves_bind; [done | |].
  { destruct present; [by apply preserves_rmtree | by apply preserves_ret]. }
  intros _. apply preserves_bind; [done | by apply (preserves_mkdir R allowed) |].
  intros _. apply preserves_bind; [done | by apply (preserves_write_file R allowed) |].
  intros _. by apply preserves_ret.
Qed.

(** [delete_analysis] from the point where the folder of the record is
    known. *)
Lemma preserves_delete_analysis_tail self analysis_id history artifact_folder :
  allowed (history_file self) -> removable artifact_folder ->
  preserves R
    (let* present := path_exists artifact_folder in
     let* is_dir := if (present : bool) then path_is_dir artifact_folder
                    else ret false in
     let* _ := if (present && is_dir)%bool then rmtree artifact_folder
               else ret tt in
     let* l := lift (py_iter history) in
     let* updated_history := lift (other_ids analysis_id l) in
     let* _ := json_dump_to (history_file self) (JList updated_history) in
     ret true).
Proof.
  intros Hhf Hrm. unfold json_dump_to.
  apply preserves_bind; [done | by apply preserves_path_exists |].
  intros present. apply preserves_bind; [done | |].
  { destruct present; [by apply preserves_path_is_dir | by apply preserves_ret]. }
  intros is_dir. apply preserves_bind; [done | |].
  { destruct (present && is_dir)%bool;
      [by apply preserves_rmtree | by apply preserves_ret]. }
  intros _. apply preserves_bind; [done | by apply preserves_lift |].
  intros l. apply preserves_bind; [done | by apply preserves_lift |].
  intros updated. apply preserves_bind; [done | |].
  { by apply (preserves_write_file R allowed). }
  intros _. by apply preserves_ret.
Qed.

End Deletes.

Lemma untouched_remove P w p :
  (forall k, P k -> ~ inside p k) -> untouched P w (set_fs (without p) w).
Proof. intros Hp k Hk. simpl. apply without_lookup_outside. auto. Qed.

(** X8: [delete_analysis] on a record that names its artifact folder
    changes nothing but the history file and the paths at or below that
    folder, wherever the record says the folder is, and whether the call
    returns or raises. *)
Theorem delete_analysis_footprint self analysis_id w l entry f :
  stored self w = Some (JList l) ->
  find_by_id analysis_id l = Ok (Some entry) ->
  py_get entry "artifacts_folder" (JStr nil_str) = Ok (JStr f) ->
  forall k, ~ inside (Path f) k -> k <> history_file self ->
    fs (snd (delete_analysis self analysis_id w)) !! k = fs w !! k.
Proof.
  intros Hst Hfind Hf k Hk Hhf. unfold delete_analysis.
  rewrite (bind_step _ _ _ _ _ (load_history_stored _ _ _ Hst)).
  assert (Hget : get_analysis self analysis_id w = (Ok (Some entry), w)).
  { by rewrite (get_analysis_stored _ _ _ _ Hst), Hfind. }
  rewrite (bind_step _ _ _ _ _ Hget).
  destruct (truthy entry); simpl; [|done].
  rewrite Hf, bind_lift. simpl py_Path. rewrite bind_lift.
  match goal with |- fs (snd (?m w)) !! _ = _ =>
    destruct (m w) as [r w'] eqn:E end. simpl.
  assert (Hu : untouched (fun k => ~ inside (Path f) k /\ k <> history_file self) w w').
  { revert E.
    apply (preserves_delete_analysis_tail
             (untouched (fun k => ~ inside (Path f) k /\ k <> history_file self))
             (fun p => p = history_file self) (fun p => p = Path f))
      with (history := JList l) (artifact_folder := Path f);
      solve [ done
            | intros ? ? _; reflexivity
            | apply untouched_trans
            | apply untouched_fs
            | intros; subst; apply untouched_insert; tauto
            | intros; subst; apply untouched_remove; tauto ]. }
  by apply Hu.
Qed.

Lemma delete_analysis_footprint_witness :
  fs (snd (delete_analysis default_manager "run-1" (one_record_world ∅)))
    !! ["analysis_artifacts"]
  = fs (one_record_world ∅) !! ["analysis_artifacts"].
Proof.
  apply (delete_analysis_footprint default_manager "run-1" (one_record_world ∅)
           [one_record] one_record "analysis_artifacts/run-1").
  - vm_compute. reflexivity.
  - vm_compute. reflexivity.
  - vm_compute. reflexivity.
  - intros [[rest Hrest] _]. vm_compute in Hrest. discriminate Hrest.
  - discriminate.
Defined.

(** ** Deleting everything *)

(** X9: [delete_all_history] changes nothing but the history file and
    the paths at or below the artifact root, whether it returns or
    raises. *)
Theorem delete_all_history_footprint self w :
  forall k, ~ inside (history_folder self) k -> k <> history_file self ->
    fs (snd (delete_all_history self w)) !! k = fs w !! k.
Proof.
  intros k Hk Hhf.
  destruct (delete_all_history self w) as [r w'] eqn:E. simpl.
  assert (Hu : untouched (fun k => ~ inside (history_folder self) k
                                   /\ k <> history_file self) w w').
  { revert E.
    apply (preserves_delete_all_history
             (untouched (fun k => ~ inside (history_folder self) k
                                  /\ k <> history_file self))
             (fun p => p = history_file self \/ p = history_folder self)
             (fun p => p = history_folder self));
      solve [ auto
            | intros ? ? _; reflexivity
            | apply untouched_trans
            | apply untouched_fs
            | intros ? ? ? [->| ->]; apply untouched_insert;
              pose proof (inside_self (history_folder self)); tauto
            | intros; subst; apply untouched_remove; tauto ]. }
  by apply Hu.
Qed.

Lemma delete_all_history_footprint_witness :
  fs (snd (delete_all_history default_manager studio_saved)) !! ["plots"; "kmeans.png"]
  = fs studio_saved !! ["plots"; "kmeans.png"].
Proof.
  apply (delete_all_history_footprint default_manager studio_saved).
  - intros [[rest Hrest] _]. discriminate Hrest.
  - discriminate.
Defined.

(** ** Exporting *)

Lemma file_of_keys l : (omap file_of l).*1 `sublist_of` l.*1.
Proof.
  induction l as [|[p [d|]] l IH]; simpl.
  - constructor.
  - by constructor.
  - by constructor.
Qed.

Lemma glob_files_spec folder w :
  exists artifacts,
    glob_files folder w = (Ok artifacts, w)
    /\ NoDup artifacts.*1
    /\ forall p d, (p, d) ∈ artifacts <->
         stat (fs w) folder = Some Dir /\ inside folder p /\ p <> folder
         /\ fs w !! p = Some (File d).
Proof.
  unfold glob_files. destruct (stat (fs w) folder) as [[d0|]|] eqn:E.
  - exists []. split; [done|]. split; [constructor|].
    intros p d. split; [by intros ?%elem_of_nil | by intros [? _]].
  - eexists. split; [done|]. split.
    + eapply sublist_NoDup; [|apply file_of_keys]. apply NoDup_fst_map_to_list.
    + intros p d. rewrite list_elem_of_omap. split.
      * intros ([k n] & Hin & Hfile). apply elem_of_map_to_list in Hin.
        apply map_lookup_filter_Some in Hin as [Hin Hne]. simpl in Hne.
        apply map_lookup_filter_Some in Hin as [Hin Hbelow]. simpl in Hbelow.
        unfold file_of in Hfile. simpl in Hfile.
        destruct n; simplify_eq. done.
      * intros (_ & Hbelow & Hne & Hin). exists (p, File d). split; [|done].
        apply elem_of_map_to_list. apply map_lookup_filter_Some. split; [|done].
        apply map_lookup_filter_Some. done.
  - exists []. split; [done|]. split; [constructor|].
    intros p d. split; [by intros ?%elem_of_nil | by intros [? _]].
Qed.

Section ExportRuns.

Variable float_repr : float -> string.
Variable str_repr : string -> string.
Variable float_fmt2 : float -> string.
Variable int_fmt2 : Z -> res string.
Variable strftime_iso : string -> option string.
Variable str_title : string -> string.

Local Abbreviation render := (_generate_html_report float_repr str_repr float_fmt2 int_fmt2
                      strftime_iso str_title).
Local Abbreviation export := (export_analysis float_repr str_repr float_fmt2 int_fmt2
                      strftime_iso str_title).

Lemma render_pure entry w r w' : render entry w = (r, w') -> w' = w.
Proof.
  unfold _generate_html_report, bind, lift, ret.
  destruct (report_lines _ _ _ _ _ _ entry); by intros [= _ <-].
Qed.

(** X10: the members of the archive that [export_analysis] builds.  The
    first is the record as JSON, the second the rendered report; then one
    member per regular file anywhere below the folder that the record
    names (none when that folder is not a directory), each file once, and
    each under [artifacts/] followed by its bare file name, so the
    directory structure below the folder is not kept.  Nothing is
    written. *)
Theorem export_analysis_members self analysis_id w l members w' :
  stored self w = Some (JList l) ->
  export self analysis_id w = (Ok (Some members), w') ->
  w' = w
  /\ exists entry html f artifacts,
       find_by_id analysis_id l = Ok (Some entry)
       /\ render entry w = (Ok html, w)
       /\ py_get entry "artifacts_folder" (JStr nil_str) = Ok (JStr f)
       /\ members = ([ ("analysis_report.json", ZJson entry);
                       ("analysis_report.html", ZText html) ]
                     ++ map archive_member artifacts)%list
       /\ NoDup artifacts.*1
       /\ forall p d, (p, d) ∈ artifacts <->
            stat (fs w) (Path f) = Some Dir /\ inside (Path f) p /\ p <> Path f
            /\ fs w !! p = Some (File d).
Proof.
  intros Hst H. unfold export_analysis in H.
  unfold bind at 1 in H. rewrite (get_analysis_stored _ _ _ _ Hst) in H.
  destruct (find_by_id analysis_id l) as [[entry|]|e] eqn:Hfind; try discriminate.
  destruct (truthy entry); simpl in H; [|discriminate].
  apply bind_ok in H as (html & w1 & Hrender & H).
  pose proof (render_pure _ _ _ _ Hrender) as ->.
  apply bind_ok in H as (folder & w2 & Hfolder & H).
  apply lift_ok in Hfolder as [Hfolder ->].
  apply bind_ok in H as (artifact_folder & w3 & Hpath & H).
  apply lift_ok in Hpath as [Hpath ->].
  destruct folder as [| | | |f| |]; try discriminate. injection Hpath as <-.
  rewrite bind_path_exists in H.
  destruct (glob_files_spec (Path f) w) as (artifacts & Hglob & Hnodup & Hmem).
  assert (Hrun : (if bool_decide (is_Some (stat (fs w) (Path f)))
                  then glob_files (Path f) else ret []) w = (Ok artifacts, w)).
  { case_bool_decide as Hpresent; [done|].
    unfold glob_files in Hglob |- *. unfold ret.
    destruct (stat (fs w) (Path f)) as [n|]; [|done].
    exfalso. apply Hpresent. eauto. }
  rewrite (bind_step _ _ _ _ _ Hrun) in H. injection H as <- <-.
  split; [done|]. exists entry, html, f, artifacts. done.
Qed.

Section ExportKeeps.

Context (R : world -> world -> Prop).
Hypothesis R_refl : forall w, R w w.
Hypothesis R_trans : forall w1 w2 w3, R w1 w2 -> R w2 w3 -> R w1 w3.

(** [export_analysis] once the record is found. *)
Lemma preserves_export_analysis_tail entry :
  preserves R
    (let* html_report := render entry in
     let* folder := lift (py_get entry "artifacts_folder" (JStr nil_str)) in
     let* artifact_folder := lift (py_Path folder) in
     let* present := path_exists artifact_folder in
     let* artifacts := if (present : bool) then glob_files artifact_folder
                       else ret [] in
     ret (Some ([ ("analysis_report.json", ZJson entry);
                  ("analysis_report.html", ZText html_report) ]
                ++ map archive_member artifacts)%list)).
Proof.
  apply preserves_bind; [done | |].
  { unfold _generate_html_report.
    apply preserves_bind; [done | by apply preserves_lift |].
    intros lines. by apply preserves_ret. }
  intros html. apply preserves_bind; [done | by apply preserves_lift |].
  intros folder. apply preserves_bind; [done | by apply preserves_lift |].
  intros artifact_folder.
  apply preserves_bind; [done | by apply preserves_path_exists |].
  intros present. apply preserves_bind; [done | |].
  { destruct present; [by apply preserves_glob_files | by apply preserves_ret]. }
  intros artifacts. by apply preserves_ret.
Qed.

Lemma preserves_export_analysis self analysis_id :
  preserves R (get_analysis self analysis_id) ->
  preserves R (export self analysis_id).
Proof.
  intros Hget. unfold export_analysis. apply preserves_bind; [done..|].
  intros [entry|]; [|by apply preserves_ret].
  destruct (negb (truthy entry));
    [by apply preserves_ret | apply preserves_export_analysis_tail].
Qed.

End ExportKeeps.

(** X11: [export_analysis] reads only.  With a history file that parses
    it leaves the world exactly as it was, whatever it returns or raises;
    otherwise the only path it can change is the history file, which
    loading resets. *)
Theorem export_analysis_read_only self analysis_id w :
  (is_Some (stored self w) -> snd (export self analysis_id w) = w)
  /\ forall k, k <> history_file self ->
       fs (snd (export self analysis_id w)) !! k = fs w !! k.
Proof.
  destruct (export self analysis_id w) as [r w'] eqn:E. simpl. split.
  - intros [v Hst].
    assert (Hp : preserves (fun w0 w1 => w = w0 -> w1 = w) (export self analysis_id)).
    { apply preserves_export_analysis.
      - done.
      - intros w1 w2 w3 H1 H2 Hw. subst. rewrite (H1 eq_refl) in H2. auto.
      - intros w0 r0 w1 Hget <-. unfold get_analysis in Hget.
        rewrite (bind_step _ _ _ _ _ (load_history_stored _ _ _ Hst)) in Hget.
        unfold bind, lift, ret in Hget. by repeat case_match; simplify_eq. }
    by apply (Hp w r w' E).
  - assert (Hp : preserves (untouched (fun k => k <> history_file self))
                   (export self analysis_id)).
    { apply preserves_export_analysis;
        [ intros ? ? _; reflexivity | apply untouched_trans | ].
      apply (preserves_get_analysis _ (fun p => p = history_file self));
        solve [ done
              | intros ? ? _; reflexivity
              | apply untouched_trans
              | apply untouched_fs
              | intros; subst; apply untouched_insert; tauto ]. }
    intros k Hk. by apply (Hp w r w' E).
Qed.

End ExportRuns.

Lemma export_analysis_members_witness :
  exists entry html f artifacts,
    find_by_id saved_id (records default_manager studio_saved) = Ok (Some entry)
    /\ plain_render entry studio_saved = (Ok html, studio_saved)
    /\ py_get entry "artifacts_folder" (JStr nil_str) = Ok (JStr f)
    /\ studio_archive = ([ ("analysis_report.json", ZJson entry);
                           ("analysis_report.html", ZText html) ]
                         ++ map archive_member artifacts)%list
    /\ NoDup artifacts.*1
    /\ forall p d, (p, d) ∈ artifacts <->
         stat (fs studio_saved) (Path f) = Some Dir /\ inside (Path f) p
         /\ p <> Path f /\ fs studio_saved !! p = Some (File d).
Proof.
  apply (proj2 (export_analysis_members (fun _ => "0.0") (fun s => s) (fun _ => "0.00")
                  (fun _ => Ok "0.00") (fun _ => None) (fun s => s)
                  default_manager saved_id
                  studio_saved (records default_manager studio_saved)
                  studio_archive studio_saved
                  ltac:(vm_compute; reflexivity) ltac:(vm_compute; reflexivity))).
Defined.

Lemma export_analysis_read_only_witness :
  snd (plain_export default_manager "run-9" studio_saved) = studio_saved.
Proof.
  apply (proj1 (export_analysis_read_only (fun _ => "0.0") (fun s => s) (fun _ => "0.00")
                  (fun _ => Ok "0.00") (fun _ => None) (fun s => s)
                  default_manager "run-9"
                  studio_saved)).
  eexists. vm_compute. reflexivity.
Defined.

(** ** Saving a result that cannot be counted *)

Lemma count_locs_raise locs : forall counts,
  ~ Forall (fun loc => is_Some (event_kind loc)) locs ->
  count_locs locs counts = Raise AttributeError.
Proof.
  induction locs as [|loc locs IH]; intros counts Hbad; simpl.
  - destruct Hbad. constructor.
  - unfold count_loc, event_kind in *.
    destruct loc as [| | | | | |d]; try done. simpl in *.
    destruct (match dict_lookup d "event" with Some v => v | None => JStr nil_str end)
      as [| | | |tag| |] eqn:E; try done.
    simpl. destruct (dict_lookup counts _); simpl; apply IH;
      intros Hall; apply Hbad; (constructor; [|done]); simpl; rewrite E; eauto.
Qed.

Lemma mkdir_exist_ok_dir p w w' :
  mkdir_exist_ok p w = (Ok tt, w') -> stat (fs w') p = Some Dir.
Proof.
  unfold mkdir_exist_ok.
  destruct (stat (fs w) p) as [[d|]|] eqn:E; [done | by intros [= <-] |].
  apply stat_none in E as (H1 & H2 & _).
  repeat case_match; intros [= <-]. simpl.
  rewrite stat_lookup by done. by rewrite lookup_insert_eq.
Qed.

(** X12: [_count_anomaly_types] returns exactly when every localization
    is a dict whose [event], if it has one, is a string; otherwise it
    raises AttributeError. *)
Theorem count_anomaly_types_outcome result :
  (Forall (fun loc => is_Some (event_kind loc)) (localizations result) ->
   exists counts, _count_anomaly_types result = Ok counts)
  /\ (~ Forall (fun loc => is_Some (event_kind loc)) (localizations result) ->
      _count_anomaly_types result = Raise AttributeError).
Proof.
  split.
  - apply count_locs_total.
  - apply count_locs_raise.
Qed.

Lemma count_anomaly_types_outcome_witness :
  _count_anomaly_types uncountable_result = Raise AttributeError.
Proof.
  apply (proj2 (count_anomaly_types_outcome uncountable_result)).
  intros H. apply Forall_cons in H as [_ H].
  apply Forall_cons in H as [[kind Hkind] _]. discriminate Hkind.
Defined.

(** X13: saving is not atomic.  When a localization of the result cannot
    be counted, [save_analysis] raises, and it does so after the artifact
    folder of the drawn identifier has been made and before the history
    is read: the history file is as it was, so no record points to the
    folder, and the folder is left on disk. *)
Theorem save_analysis_uncountable self result video_name info w :
  ~ Forall (fun loc => is_Some (event_kind loc)) (localizations result) ->
  ~ inside (path_div (history_folder self) (entropy w (drawn w))) (history_file self) ->
  stat (fs w) (path_parent (path_div (history_folder self) (entropy w (drawn w))))
    = Some Dir ->
  exists e w',
    save_analysis self result video_name info w = (Raise e, w')
    /\ fs w' !! history_file self = fs w !! history_file self
    /\ is_Some (stat (fs w') (path_div (history_folder self) (entropy w (drawn w)))).
Proof.
  intros Hbad Hhf Hparent.
  unfold save_analysis. unfold bind at 1, uuid4 at 1. cbv zeta.
  set (id := entropy w (drawn w)) in *.
  set (folder := path_div (history_folder self) id) in *.
  set (w1 := World _ _ _ _ _ _ _).
  assert (Hkeep : forall A (m : M A) w2 r w3,
             preserves (untouched (fun k => k = history_file self)) m ->
             preserves never_removes m ->
             fs w2 !! history_file self = fs w !! history_file self ->
             is_Some (stat (fs w2) folder) ->
             m w2 = (r, w3) ->
             fs w3 !! history_file self = fs w !! history_file self
             /\ is_Some (stat (fs w3) folder)).
  { intros A m w2 r w3 Hu Hn Hsame Hdir Hrun. split.
    - rewrite <- Hsame. by apply (Hu _ _ _ Hrun).
    - by apply (Hn _ _ _ Hrun). }
  assert (Hmk_u : preserves (untouched (fun k => k = history_file self))
                    (mkdir_exist_ok folder)).
  { apply (preserves_mkdir _ (fun p => inside folder p));
      [ intros ? ? _; reflexivity
      | intros ? p ? Hp; apply untouched_insert; by intros ->
      | apply inside_self ]. }
  assert (Hsa_u : preserves (untouched (fun k => k = history_file self))
                    (_save_artifacts result folder)).
  { apply (preserves_save_artifacts _ (fun p => inside folder p) folder);
      solve [ done
            | intros ? ? _; reflexivity
            | apply untouched_trans
            | apply untouched_fs
            | intros ? p ? Hp; apply untouched_insert; by intros -> ]. }
  assert (Hsa_n : preserves never_removes (_save_artifacts result folder)).
  { apply (preserves_save_artifacts never_removes (fun _ => True) folder);
      never_removes_side. }
  unfold bind at 1.
  destruct (mkdir_exist_ok folder w1) as [[[]|e1] w2] eqn:E1.
  - pose proof (mkdir_exist_ok_dir _ _ _ E1) as Hdir.
    pose proof (Hmk_u _ _ _ E1 (history_file self) eq_refl) as Hsame.
    unfold bind at 1.
    destruct (_save_artifacts result folder w2) as [[saved|e2] w3] eqn:E2.
    + destruct (Hkeep _ _ _ _ _ Hsa_u Hsa_n Hsame ltac:(eauto) E2) as [Hsame3 Hdir3].
      unfold bind at 1, now_isoformat at 1. unfold _count_anomaly_types.
      rewrite (count_locs_raise _ _ Hbad). eexists _, _. split; [done|]. done.
    + destruct (Hkeep _ _ _ _ _ Hsa_u Hsa_n Hsame ltac:(eauto) E2) as [Hsame3 Hdir3].
      by eexists _, _.
  - exists e1, w2. split; [done|]. split.
    + apply (Hmk_u _ _ _ E1 (history_file self) eq_refl).
    + revert E1. unfold mkdir_exist_ok.
      change (fs w1) with (fs w). rewrite Hparent.
      destruct (stat (fs w) folder) as [[d|]|] eqn:E; intros [= _ <-]; simpl.
      rewrite E. eauto.
Qed.

Lemma save_analysis_uncountable_witness :
  exists e w',
    save_analysis default_manager uncountable_result "video.mp4" JNull studio_world
    = (Raise e, w')
    /\ fs w' !! history_file default_manager
       = fs studio_world !! history_file default_manager
    /\ is_Some (stat (fs w') (path_div (history_folder default_manager)
                                (entropy studio_world (drawn studio_world)))).
Proof.
  apply (save_analysis_uncountable default_manager uncountable_result "video.mp4"
           JNull studio_world).
  - intros H. apply Forall_cons in H as [_ H].
    apply Forall_cons in H as [[kind Hkind] _]. discriminate Hkind.
  - intros [[rest Hrest] _]. vm_compute in Hrest. discriminate Hrest.
  - vm_compute. reflexivity.
Defined.

(** ** Saving, then exporting *)

Lemma texts_set saved key s : texts saved -> texts (dict_set saved key (JStr s)).
Proof.
  unfold texts. induction 1 as [|[k v] saved Hv Hrest IH]; simpl.
  - repeat constructor. eauto.
  - destruct (String.eqb k key); constructor; simpl; eauto.
Qed.

Lemma texts_lookup saved key v :
  texts saved -> dict_lookup saved key = Some v -> exists s, v = JStr s.
Proof.
  unfold texts. induction 1 as [|[k v0] saved Hv _ IH]; simpl; [done|].
  destruct (String.eqb k key); [by intros [= <-] | done].
Qed.

Lemma for_each_inv {A S} (P : S -> Prop) (body : A -> S -> M S) l :
  (forall x acc w acc' w', body x acc w = (Ok acc', w') -> P acc -> P acc') ->
  forall acc w acc' w',
    for_each l body acc w = (Ok acc', w') -> P acc -> P acc'.
Proof.
  intros Hbody. induction l as [|x l IH]; simpl; intros acc w acc' w' H Hacc.
  - apply ret_ok in H as [-> _]. done.
  - apply bind_ok in H as (acc1 & w1 & H1 & H). eauto.
Qed.

(** The mapping that [_save_artifacts] returns holds texts only. *)
Lemma save_artifacts_texts result folder w saved w' :
  _save_artifacts result folder w = (Ok saved, w') -> texts saved.
Proof.
  unfold _save_artifacts. intros H.
  apply bind_ok in H as (saved1 & w1 & H1 & H).
  apply bind_ok in H as (saved2 & w2 & H2 & H).
  apply bind_ok in H as (saved3 & w3 & H3 & H).
  apply bind_ok in H as (saved4 & w4 & H4 & H).
  apply bind_ok in H as (saved5 & w5 & H5 & H).
  apply ret_ok in H as [-> _].
  assert (T1 : texts saved1).
  { eapply (for_each_inv texts); [|exact H1|constructor].
    intros [name v] acc w0 acc' w0' Hrun Hacc.
    apply save_plot_ok in Hrun as [_ [->|(s & _ & _ & ->)]];
      [done | by apply texts_set]. }
  assert (T2 : texts saved2).
  { eapply (for_each_inv texts); [|exact H2|exact T1].
    intros [i loc] acc w0 acc' w0' Hrun Hacc.
    apply save_frame_ok in Hrun as [_ [[-> _]|(s & _ & _ & _ & ->)]];
      [done | by apply texts_set]. }
  apply save_report_ok in H3 as [_ [->|(s3 & _ & _ & ->)]];
    apply save_report_ok in H4 as [_ [->|(s4 & _ & _ & ->)]];
    apply save_report_ok in H5 as [_ [->|(s5 & _ & _ & ->)]];
    repeat apply texts_set; done.
Qed.

Lemma res_bind_total {A B} (r : res A) (k : A -> res B) a :
  r = Ok a -> (exists b, k a = Ok b) -> exists b, res_bind r k = Ok b.
Proof. intros -> H. exact H. Qed.

Lemma concat_res_total {A} (f : A -> res (list string)) l :
  (forall x, In x l -> exists r, f x = Ok r) -> exists r, concat_res f l = Ok r.
Proof.
  induction l as [|x l IH]; simpl; intros Hf; [eauto|].
  destruct (Hf x) as [lines Hx]; [by left|].
  destruct IH as [rest Hrest]; [intros y Hy; apply Hf; by right|].
  rewrite Hx, Hrest. simpl. eauto.
Qed.

Lemma dict_lookup_present {V} (d : list (string * V)) key :
  existsb (fun kv => String.eqb (fst kv) key) d = true -> is_Some (dict_lookup d key).
Proof.
  induction d as [|[k v] d IH]; simpl; [done|].
  destruct (String.eqb k key); simpl; eauto.
Qed.

(** The helper that names an artifact never raises on a record whose
    [saved_artifacts] holds texts. *)
Lemma artifact_path_total entry saved key :
  py_get entry "saved_artifacts" (JDict []) = Ok (JDict saved) ->
  py_item entry "saved_artifacts" = Ok (JDict saved) ->
  texts saved ->
  exists r, get_artifact_relative_path entry key = Ok r.
Proof.
  intros Hget Hitem Htexts. unfold get_artifact_relative_path.
  rewrite Hget. simpl.
  destruct (existsb _ saved) eqn:E; [|eauto].
  rewrite Hitem. simpl.
  destruct (dict_lookup_present _ _ E) as [v Hv]. rewrite Hv. simpl.
  destruct (texts_lookup _ _ _ Htexts Hv) as [s ->]. simpl. eauto.
Qed.

Lemma visual_block_total entry saved tag rule v :
  py_get entry "saved_artifacts" (JDict []) = Ok (JDict saved) ->
  py_item entry "saved_artifacts" = Ok (JDict saved) ->
  texts saved ->
  exists r, visual_block entry tag rule v = Ok r.
Proof.
  intros Hget Hitem Htexts. unfold visual_block.
  destruct (artifact_path_total entry saved (v_key v) Hget Hitem Htexts) as [[img|] ->];
    simpl; eauto.
Qed.

Lemma evidence_lines_total entry saved keys :
  py_get entry "saved_artifacts" (JDict []) = Ok (JDict saved) ->
  py_item entry "saved_artifacts" = Ok (JDict saved) ->
  texts saved ->
  exists r, evidence_lines entry keys = Ok r.
Proof.
  intros Hget Hitem Htexts. induction keys as [|key keys IH]; simpl; [eauto|].
  destruct (artifact_path_total entry saved key Hget Hitem Htexts) as [[img|] ->];
    simpl; eauto.
Qed.

Lemma enumerate_from_snd {A} (l : list A) : forall n i x,
  In (i, x) (enumerate_from n l) -> In x l.
Proof.
  induction l as [|y l IH]; intros n i x; simpl; [done|].
  intros [[= <- <-]|H]; [by left | right; eauto].
Qed.

Section SavedReports.

Variable float_repr : float -> string.
Variable str_repr : string -> string.
Variable float_fmt2 : float -> string.
Variable int_fmt2 : Z -> res string.
Variable strftime_iso : string -> option string.
Variable str_title : string -> string.

Local Abbreviation fmt := (format_2f float_fmt2 int_fmt2).
Local Abbreviation lines_of := (report_lines float_repr str_repr float_fmt2 int_fmt2
                      strftime_iso str_title).
Local Abbreviation render := (_generate_html_report float_repr str_repr float_fmt2 int_fmt2
                      strftime_iso str_title).
Local Abbreviation export := (export_analysis float_repr str_repr float_fmt2 int_fmt2
                      strftime_iso str_title).

Lemma primary_findings_total m :
  matrix_ok m ->
  exists r, primary_findings_lines float_repr str_repr m = Ok r.
Proof.
  intros (dc & reliability & findings & Hc & _ & Hf & Hall).
  unfold primary_findings_lines.
  eapply res_bind_total; [exact Hc|]. eapply res_bind_total; [exact Hf|].
  destruct (truthy (JList findings)); [|eauto].
  eapply res_bind_total; [done|].
  destruct (concat_res_total (finding_lines float_repr str_repr) findings)
    as [items Hitems].
  - intros finding Hin. rewrite Forall_forall in Hall.
    destruct (Hall finding) as [d ->]; [by apply list_elem_of_In|].
    unfold finding_lines. simpl. eauto.
  - eapply res_bind_total; [exact Hitems|]. eauto.
Qed.

Lemma metrics_lines_total loc :
  (forall v, py_get loc "metrics" JNull = Ok v -> truthy v = true ->
     exists d, v = JDict d) ->
  is_Some (event_kind loc) ->
  exists r, metrics_lines float_repr str_repr str_title loc = Ok r.
Proof.
  intros Hm [kind Hk]. unfold metrics_lines.
  destruct loc as [| | | | | |d]; try done.
  destruct (py_get (JDict d) "metrics" JNull) as [v|] eqn:E; [|done].
  simpl res_bind. destruct (truthy v) eqn:T; [|eauto].
  destruct (Hm v eq_refl T) as [dm ->]. eauto.
Qed.

Lemma localization_lines_total entry saved i loc :
  py_get entry "saved_artifacts" (JDict []) = Ok (JDict saved) ->
  py_item entry "saved_artifacts" = Ok (JDict saved) ->
  texts saved ->
  loc_renderable fmt loc ->
  exists r, localization_lines float_repr str_repr float_fmt2 int_fmt2 str_title
              entry (i, loc) = Ok r.
Proof.
  intros Hget Hitem Htexts (Hkind & Htimes & Hmetrics).
  unfold localization_lines. simpl fst. simpl snd.
  destruct Hkind as [kind Hkind]. unfold event_kind in Hkind.
  destruct (py_get loc "event" (JStr nil_str)) as [[| | | |tag| |]|] eqn:E; try done.
  eapply res_bind_total; [done|]. eapply res_bind_total; [done|].
  destruct (Htimes "start_ts") as (v1 & t1 & Hv1 & Ht1); [set_solver|].
  destruct (Htimes "end_ts") as (v2 & t2 & Hv2 & Ht2); [set_solver|].
  destruct (Htimes "duration") as (v3 & t3 & Hv3 & Ht3); [set_solver|].
  eapply res_bind_total; [exact Hv1|]. eapply res_bind_total; [exact Ht1|].
  eapply res_bind_total; [exact Hv2|]. eapply res_bind_total; [exact Ht2|].
  eapply res_bind_total; [exact Hv3|]. eapply res_bind_total; [exact Ht3|].
  destruct loc as [| | | | | |d]; try done.
  eapply res_bind_total; [done|].
  destruct (evidence_lines_total entry saved
              ["anomaly_frame_0"; "anomaly_frame_1"; "anomaly_frame_2"]
              Hget Hitem Htexts) as [evidence Hev].
  eapply res_bind_total; [exact Hev|].
  destruct (metrics_lines_total (JDict d) Hmetrics) as [metrics Hme].
  { unfold event_kind. rewrite E. eauto. }
  eapply res_bind_total; [exact Hme|]. eauto.
Qed.

Lemma anomaly_section_total entry saved locs :
  py_get entry "saved_artifacts" (JDict []) = Ok (JDict saved) ->
  py_item entry "saved_artifacts" = Ok (JDict saved) ->
  texts saved ->
  Forall (loc_renderable fmt) locs ->
  exists r, anomaly_section float_repr str_repr float_fmt2 int_fmt2 str_title
              entry (JList locs) = Ok r.
Proof.
  intros Hget Hitem Htexts Hall. unfold anomaly_section.
  destruct (truthy (JList locs)); [|eauto].
  eapply res_bind_total; [done|]. eapply res_bind_total; [done|].
  destruct (concat_res_total
              (localization_lines float_repr str_repr float_fmt2 int_fmt2 str_title entry)
              (enumerate_from 0 locs)) as [blocks Hblocks].
  - intros [i loc] Hin. apply enumerate_from_snd in Hin.
    eapply localization_lines_total; eauto.
    rewrite Forall_forall in Hall. apply Hall. by apply list_elem_of_In.
  - eapply res_bind_total; [exact Hblocks|]. eauto.
Qed.

(** The report of a record that [save_analysis] assembled from a
    renderable result. *)
Lemma report_lines_total id timestamp video_name folder result counts saved info :
  renderable fmt result ->
  texts saved ->
  exists lines,
    lines_of (history_entry id timestamp video_name folder result counts saved info)
    = Ok lines.
Proof.
  intros ((m & Hm & Hmatrix) & (h & Hh) & Hlocs) Htexts.
  destruct result as [ph sm md fem ld pa locs plots pdf html js]. simpl in *. subst.
  pose proof Hmatrix as (dc & reliability & findings & Hc & Hr & _).
  set (entry := history_entry _ _ _ _ _ _ _ _).
  assert (Hget : py_get entry "saved_artifacts" (JDict []) = Ok (JDict saved)) by done.
  assert (Hitem : py_item entry "saved_artifacts" = Ok (JDict saved)) by done.
  unfold report_lines.
  eapply (res_bind_total _ _ m); [done|].
  eapply res_bind_total; [exact Hc|]. eapply res_bind_total; [exact Hr|].
  eapply (res_bind_total _ _ (JStr video_name)); [done|].
  eapply (res_bind_total _ _ (JStr timestamp)); [done|].
  eapply res_bind_total; [done|].
  eapply (res_bind_total _ _ (if is_substring "Tinggi" reliability then "#28a745"
                              else if is_substring "Sedang" reliability
                                   then "#ffc107" else "#dc3545")).
  { simpl. by destruct (is_substring "Tinggi" reliability). }
  eapply (res_bind_total _ _ (JStr h)); [done|].
  eapply res_bind_total; [done|].
  destruct (primary_findings_total m Hmatrix) as [lines1 H1].
  eapply res_bind_total; [exact H1|].
  destruct (concat_res_total (visual_block entry "h3" ["<hr>"]) timeline_visuals)
    as [lines2 H2]; [intros; by eapply visual_block_total|].
  eapply res_bind_total; [exact H2|].
  destruct (concat_res_total (visual_block entry "h3" ["<hr>"]) enhanced_maps)
    as [lines3 H3]; [intros; by eapply visual_block_total|].
  eapply res_bind_total; [exact H3|].
  destruct (concat_res_total (visual_block entry "h4" []) ferm_visuals)
    as [lines4 H4]; [intros; by eapply visual_block_total|].
  eapply res_bind_total; [exact H4|].
  eapply (res_bind_total _ _ (JList locs)); [done|].
  destruct (anomaly_section_total entry saved locs Hget Hitem Htexts Hlocs)
    as [lines5 H5].
  eapply res_bind_total; [exact H5|].
  eapply res_bind_total; [done|]. eauto.
Qed.

(** X14: a renderable result, once saved, exports.  After
    [save_analysis] has returned an identifier, the identifiers of the
    history file being distinct, [export_analysis] on that identifier
    returns an archive that opens with the saved record as JSON and its
    HTML report, followed by one member per file found below the artifact
    folder, and leaves the world as it is. *)
Theorem save_then_export self result video_name info w id w' :
  save_analysis self result video_name info w = (Ok id, w') ->
  unique_ids (records self w') ->
  renderable fmt result ->
  exists entry html artifacts,
    get_analysis self id w' = (Ok (Some entry), w')
    /\ render entry w' = (Ok html, w')
    /\ export self id w'
       = (Ok (Some ([ ("analysis_report.json", ZJson entry);
                      ("analysis_report.html", ZText html) ]
                    ++ map archive_member artifacts)%list), w').
Proof.
  intros Hsave Huniq Hrender.
  apply save_analysis_ok in Hsave
    as (saved & ts & counts & history & w1 & w2 & Hid & Hsaved & _ & Hst).
  cbv zeta in Hsaved, Hst.
  apply save_artifacts_texts in Hsaved.
  unfold records in Huniq. rewrite Hst in Huniq.
  set (entry := history_entry _ _ _ _ _ _ _ _) in *.
  pose proof (find_by_id_last id history entry Huniq eq_refl) as Hfind.
  destruct (report_lines_total id ts video_name
              (path_div (history_folder self) id) result counts saved info
              Hrender Hsaved) as [lines Hlines].
  fold entry in Hlines.
  assert (Hhtml : render entry w' = (Ok (String.concat newline lines), w')).
  { unfold _generate_html_report. by rewrite Hlines. }
  destruct (export_analysis_rendered float_repr str_repr float_fmt2 int_fmt2
              strftime_iso str_title self id w' (history ++ [entry]) entry
              (path_str (path_div (history_folder self) id))
              (String.concat newline lines) Hst Hfind Hhtml eq_refl)
    as (artifacts & _ & Hexport).
  eexists entry, _, _. split; [|split; [exact Hhtml | exact Hexport]].
  by rewrite (get_analysis_stored _ _ _ _ Hst), Hfind.
Qed.

End SavedReports.

Lemma save_then_export_witness :
  exists entry html artifacts,
    get_analysis default_manager saved_id studio_saved = (Ok (Some entry), studio_saved)
    /\ plain_render entry studio_saved = (Ok html, studio_saved)
    /\ plain_export default_manager saved_id studio_saved
       = (Ok (Some ([ ("analysis_report.json", ZJson entry);
                      ("analysis_report.html", ZText html) ]
                    ++ map archive_member artifacts)%list), studio_saved).
Proof.
  apply (save_then_export (fun _ => "0.0") (fun s => s) (fun _ => "0.00")
           (fun _ => Ok "0.00") (fun _ => None) (fun s => s)
           default_manager studio_result "video.mp4" JNull studio_world).
  - vm_compute. reflexivity.
  - split.
    + vm_compute. repeat constructor; eauto.
    + vm_compute. apply NoDup_singleton.
  - split; [|split].
    + exists studio_matrix. split; [reflexivity|].
      eexists _, _, _. repeat split; [reflexivity..|].
      repeat constructor; eauto.
    + eexists. reflexivity.
    + repeat constructor; simpl; eauto.
      all: try (intros key Hkey; apply list_elem_of_In in Hkey; simpl in Hkey;
                destruct Hkey as [<-|[<-|[<-|[]]]]; eexists _, _; split; reflexivity).
      all: try (intros v [= <-]; eauto; discriminate).
Defined.

Section UnrenderableReports.

Variable float_repr : float -> string.
Variable str_repr : string -> string.
Variable float_fmt2 : float -> string.
Variable int_fmt2 : Z -> res string.
Variable strftime_iso : string -> option string.
Variable str_title : string -> string.

Local Abbreviation render := (_generate_html_report float_repr str_repr float_fmt2 int_fmt2
                      strftime_iso str_title).
Local Abbreviation export := (export_analysis float_repr str_repr float_fmt2 int_fmt2
                      strftime_iso str_title).

(** X15: no result without an evidence matrix can be exported.  When
    the result has no [forensic_evidence_matrix] attribute, or one that
    is not a dict, [save_analysis] stores the record all the same, and
    [export_analysis] on the identifier it returned raises AttributeError
    (the identifiers of the history file being distinct), although
    [get_analysis] returns the record. *)
Theorem save_without_matrix_export self result video_name info w id w' :
  save_analysis self result video_name info w = (Ok id, w') ->
  unique_ids (records self w') ->
  (forall d, forensic_evidence_matrix result <> Some (JDict d)) ->
  (exists entry, get_analysis self id w' = (Ok (Some entry), w'))
  /\ export self id w' = (Raise AttributeError, w').
Proof.
  intros Hsave Huniq Hmatrix.
  apply save_analysis_ok in Hsave
    as (saved & ts & counts & history & w1 & w2 & Hid & _ & _ & Hst).
  cbv zeta in Hst.
  unfold records in Huniq. rewrite Hst in Huniq.
  set (entry := history_entry _ _ _ _ _ _ _ _) in *.
  pose proof (find_by_id_last id history entry Huniq eq_refl) as Hfind.
  assert (Hget : get_analysis self id w' = (Ok (Some entry), w')).
  { by rewrite (get_analysis_stored _ _ _ _ Hst), Hfind. }
  split; [eauto|].
  unfold export_analysis. rewrite (bind_step _ _ _ _ _ Hget).
  change (truthy entry) with true. cbn [negb].
  assert (Hrender : render entry w' = (Raise AttributeError, w')).
  { unfold _generate_html_report, report_lines.
    change (py_get entry "forensic_evidence_matrix" (JDict []))
      with (Ok (or_null (forensic_evidence_matrix result))).
    destruct (forensic_evidence_matrix result) as [[| | | | | |d]|]; try done.
    by destruct (Hmatrix d). }
  by rewrite (bind_fail _ _ _ _ _ Hrender).
Qed.

End UnrenderableReports.

Lemma save_without_matrix_export_witness :
  (exists entry,
     get_analysis default_manager saved_id saved_world = (Ok (Some entry), saved_world))
  /\ plain_export default_manager saved_id saved_world
     = (Raise AttributeError, saved_world).
Proof.
  apply (save_without_matrix_export (fun _ => "0.0") (fun s => s) (fun _ => "0.00")
           (fun _ => Ok "0.00") (fun _ => None) (fun s => s)
           default_manager example_result "video.mp4" JNull fresh_world).
  - vm_compute. reflexivity.
  - split.
    + vm_compute. repeat constructor; eauto.
    + vm_compute. apply NoDup_singleton.
  - intros d. discriminate.
Defined.

(** ** Constructing a manager *)

(** X16: constructing a manager is safe to repeat.  When [__init__]
    returns, the artifact root is a directory and the history file
    exists; a history file that was already there is left as it was (it
    is not truncated), a missing one now holds the empty list (unless it
    bears the name of the artifact root, which is then a directory); and
    a second construction with the same names changes nothing. *)
Theorem init_idempotent file folder w self w' :
  __init__ file folder w = (Ok self, w') ->
  __init__ file folder w' = (Ok self, w')
  /\ stat (fs w') (history_folder self) = Some Dir
  /\ (is_Some (stat (fs w) (history_file self)) ->
      stat (fs w') (history_file self) = stat (fs w) (history_file self))
  /\ (history_file self <> history_folder self ->
      stat (fs w) (history_file self) = None ->
      stored self w' = Some (JList [])).
Proof.
  unfold __init__. intros H.
  apply bind_ok in H as ([] & w1 & Hmk & H).
  rewrite bind_path_exists in H.
  apply bind_ok in H as ([] & w2 & Hfile & H).
  apply ret_ok in H as [-> ->]. cbn [history_folder history_file] in *.
  pose proof (mkdir_exist_ok_dir _ _ _ Hmk) as Hdir.
  assert (Hmk' : w1 = w \/ (stat (fs w) (Path folder) = None
                            /\ w1 = set_fs (insert (Path folder) Dir) w)).
  { revert Hmk. unfold mkdir_exist_ok.
    destruct (stat (fs w) (Path folder)) as [[d|]|]; try done.
    - intros [= <-]. by left.
    - destruct (stat (fs w) (path_parent (Path folder))) as [[d|]|]; try done.
      intros [= <-]. by right. }
  assert (Hsame : Path file <> Path folder ->
                  stat (fs w1) (Path file) = stat (fs w) (Path file)).
  { intros Hne. destruct Hmk' as [->|[_ ->]]; [done|]. simpl.
    unfold stat. case_decide; [done|]. by rewrite lookup_insert_ne. }
  assert (Hkeep : is_Some (stat (fs w) (Path file)) ->
                  stat (fs w1) (Path file) = stat (fs w) (Path file)).
  { intros Hsome. destruct Hmk' as [->|[E _]]; [done|]. apply Hsame.
    intros Heq. rewrite Heq, E in Hsome. by destruct Hsome. }
  case_bool_decide as Hpresent.
  - apply ret_ok in Hfile as [_ ->].
    split; [|split; [done|split]].
    + assert (Hmk1 : mkdir_exist_ok (Path folder) w1 = (Ok tt, w1)).
      { unfold mkdir_exist_ok. by rewrite Hdir. }
      rewrite (bind_step _ _ _ _ _ Hmk1), bind_path_exists.
      by rewrite bool_decide_eq_true_2.
    + done.
    + intros Hne Hnone. exfalso.
      assert (Hp : is_Some (stat (fs w1) (Path file))) by exact Hpresent.
      rewrite (Hsame Hne), Hnone in Hp. by destruct Hp.
  - unfold json_dump_to in Hfile. apply write_file_ok in Hfile as [-> Hst].
    assert (Hnone : stat (fs w1) (Path file) = None).
    { destruct (stat (fs w1) (Path file)) eqn:E; [|done].
      destruct Hpresent. eauto. }
    apply stat_none in Hnone as (H1 & H2 & Hlook).
    assert (Hne : Path file <> Path folder).
    { intros Heq. rewrite <- Heq in Hdir. rewrite stat_lookup in Hdir by done.
      congruence. }
    assert (Hdir2 : stat (fs (set_fs (insert (Path file) (File (JsonText (JList [])))) w1))
                      (Path folder) = Some Dir).
    { simpl. revert Hdir. unfold stat. case_decide; [done|].
      by rewrite lookup_insert_ne. }
    split; [|split; [done|split]].
    + assert (Hmk1 : mkdir_exist_ok (Path folder)
                       (set_fs (insert (Path file) (File (JsonText (JList [])))) w1)
                     = (Ok tt, set_fs (insert (Path file) (File (JsonText (JList [])))) w1)).
      { unfold mkdir_exist_ok. by rewrite Hdir2. }
      rewrite (bind_step _ _ _ _ _ Hmk1), bind_path_exists.
      rewrite bool_decide_eq_true_2; [done|]. rewrite Hst. eauto.
    + intros Hsome. rewrite <- (Hkeep Hsome) in Hsome.
      rewrite stat_lookup, Hlook in Hsome by done. by destruct Hsome.
    + intros _ _. unfold stored. cbn [history_file]. by rewrite Hst.
Qed.

Lemma init_idempotent_witness :
  __init__ "analysis_history.json" "analysis_artifacts" (one_record_world ∅)
  = (Ok default_manager, one_record_world ∅)
  /\ stat (fs (one_record_world ∅)) (history_folder default_manager) = Some Dir
  /\ (is_Some (stat (fs (one_record_world ∅)) (history_file default_manager)) ->
      stat (fs (one_record_world ∅)) (history_file default_manager)
      = stat (fs (one_record_world ∅)) (history_file default_manager))
  /\ (history_file default_manager <> history_folder default_manager ->
      stat (fs (one_record_world ∅)) (history_file default_manager) = None ->
      stored default_manager (one_record_world ∅) = Some (JList [])).
Proof.
  apply (init_idempotent "analysis_history.json" "analysis_artifacts"
           (one_record_world ∅) default_manager (one_record_world ∅)).
  vm_compute. reflexivity.
Defined.
